(** * elastic-package: swarm lifecycle, stack deploy, manifest query

    A shallow embedding of the Go sources

    - [internal/docker/docker.go]   (package [docker])
    - [cmd/stack_swarm.go]          (package [cmd]: swarm init/up/down/leave)
    - [cmd/query.go]                (package [cmd]: manifest query)
    - the stack deploy file         (package [stack]: [Deploy], [stackDeploy])

    Go strings and byte slices are byte sequences: both are [string] here.
    A Go [error] return is [option error] ([None] is [nil]); a Go
    [(T, error)] return is [result T].  Everything the code does to the
    outside (processes, console, files, profiles) is recorded as an
    [Event]; what the outside answers is read from a [World], whose
    answers may depend on the whole history of events so far. *)

From Stdlib Require Import String Ascii List Bool Arith ZArith Lia.
Import ListNotations.
Local Open Scope string_scope.
Local Open Scope list_scope.

Infix "+++" := String.append (right associativity, at level 60).

(** ** Go values *)

(** [errors.New] / [fmt.Errorf] / errors made by libraries, and
    [errors.Wrap] / [errors.Wrapf] of github.com/pkg/errors. *)
Inductive error : Type :=
| errorString (msg : string)
| withMessage (cause : error) (msg : string).

(** The [Error()] method: a wrapped error prints as [msg: cause]. *)
Fixpoint Error (e : error) : string :=
  match e with
  | errorString msg => msg
  | withMessage cause msg => msg +++ ": " +++ Error cause
  end.

(** [errors.Cause]: the innermost error of a chain of wraps. *)
Fixpoint Cause (e : error) : error :=
  match e with
  | errorString _ => e
  | withMessage cause _ => Cause cause
  end.

Inductive result (A : Type) : Type :=
| Ok (a : A)
| Err (e : error).
Arguments Ok {A} a.
Arguments Err {A} e.

Definition errOf {A} (r : result A) : option error :=
  match r with Ok _ => None | Err e => Some e end.

(** The double quote, and the line feed of ['\n']. *)
Definition dquote : string := String (ascii_of_nat 34) EmptyString.
Definition LF : ascii := ascii_of_nat 10.
Definition newline : string := String LF EmptyString.

(** [sub] occurs in [s] (Go's [strings.Contains]). *)
Definition Contains (s sub : string) : Prop :=
  exists pre post, s = pre +++ sub +++ post.

(** ** os/exec *)

(** Where a standard stream of a child process goes: [nil] (the null
    device), the console of the calling process ([os.Stdout] /
    [os.Stderr]), or an in-memory buffer. *)
Inductive Stream : Type := Discard | Console | Buffer.

Record Cmd : Type := mkCmd {
  Args : list string;
  Env : option (list string);
  Stdout : Stream;
  Stderr : Stream
}.

(** [exec.Command(name, arg...)]: argv, inherited environment, no streams. *)
Definition Command (name : string) (arg : list string) : Cmd :=
  {| Args := name :: arg; Env := None; Stdout := Discard; Stderr := Discard |}.

(** The second word of the command line: [swarm], [network], [ps], ... *)
Definition subcommand (c : Cmd) : string := nth 1 (Args c) EmptyString.

Definition setStdout (s : Stream) (c : Cmd) : Cmd :=
  {| Args := Args c; Env := Env c; Stdout := s; Stderr := Stderr c |}.
Definition setStderr (s : Stream) (c : Cmd) : Cmd :=
  {| Args := Args c; Env := Env c; Stdout := Stdout c; Stderr := s |}.
Definition setEnv (e : list string) (c : Cmd) : Cmd :=
  {| Args := Args c; Env := Some e; Stdout := Stdout c; Stderr := Stderr c |}.

(** What a finished child process leaves: its exit error ([None] for
    exit status 0) and what it wrote on its two streams. *)
Record Completed : Type := mkCompleted {
  exitError : option error;
  stdoutData : string;
  stderrData : string
}.

(** ** Data of the neighbouring packages *)

(** [profile.Options] *)
Record ProfileOptions : Type := mkProfileOptions {
  Name : string;
  FromProfile : string;
  OverwriteExisting : bool
}.

(** [*profile.Profile]: the path, and what its methods [FetchPath] and
    [ComposeEnvVars] return. *)
Record Profile : Type := mkProfile {
  ProfilePath : string;
  FetchPath : string -> string;
  ComposeEnvVars : list string
}.

(** [stack.Options] *)
Record Options : Type := mkOptions {
  SwarmMode : bool;
  StackName : string;
  StackVersion : string;
  OptProfile : Profile
}.

(** [os.FileInfo], as far as [queryManifest] looks at it. *)
Record FileInfo : Type := mkFileInfo {
  FileName : string;
  IsDir : bool
}.

(** [locations.LocationManager]: what its method [PackagesDir] returns. *)
Record LocationManager : Type := mkLocationManager {
  PackagesDir : string
}.

(** [install.ApplicationConfiguration]: what
    [StackImageRefs(version).AsEnv()] returns. *)
Record ApplicationConfiguration : Type := mkApplicationConfiguration {
  StackImageRefsAsEnv : string -> list string
}.

(** [docker.NetworkDescription]: container identifier to container name. *)
Record NetworkDescription : Type := mkNetworkDescription {
  Containers : list (string * string)
}.

Record HealthLog : Type := mkHealthLog {
  LogStart : Z;
  LogExitCode : Z;
  LogOutput : string
}.

Record Health : Type := mkHealth {
  HealthStatus : string;
  Log : list HealthLog
}.

(** [docker.ContainerDescription] *)
Record ContainerDescription : Type := mkContainerDescription {
  ID : string;
  StateStatus : string;
  StateExitCode : Z;
  StateHealth : option Health
}.

(** ** Events and the world *)

Inductive Event : Type :=
| EvDebugf (format : string) (c : Cmd)     (* logger.Debugf(format, cmd) *)
| EvLogError (e : error)                   (* logger.Error(err) *)
| EvStart (c : Cmd)                        (* a child process is run *)
| EvPrint (s : string)                     (* cmd.Println, fmt.Printf, ... *)
| EvCreateProfile (o : ProfileOptions)     (* profile.CreateProfile *)
| EvClearDir (dir : string)                (* files.ClearDir *)
| EvCopyAll (src dst : string)             (* files.CopyAll *)
| EvComposeBuild (o : Options).            (* dockerComposeBuild *)

Definition trace : Type := list Event.

(** The answers of everything outside the embedded code.  An answer that
    can depend on what was done before takes the history. *)
Record World : Type := mkWorld {
  (* command line flags, parsed before the command runs *)
  GetString : string -> result string;
  GetStringSlice : string -> result (list string);
  (* logger.IsDebugMode *)
  IsDebugMode : bool;
  (* the operating system *)
  process : trace -> Cmd -> Completed;
  Environ : trace -> list string;
  InterfaceByName : trace -> string -> option error;
  ReadDir : trace -> string -> result (list FileInfo);
  Open : trace -> string -> option error;
  ReadAll : trace -> string -> result string;
  (* other packages of the repository: profile, builder, locations, files, install *)
  CreateProfile : trace -> ProfileOptions -> option error;
  FindBuildPackagesDirectory : trace -> result (string * bool);
  NewLocationManager : trace -> result LocationManager;
  ClearDir : trace -> string -> option error;
  CopyAll : trace -> string -> string -> option error;
  dockerComposeBuild : trace -> Options -> option error;
  Configuration : trace -> result ApplicationConfiguration
}.

(** Pure functions of Go's libraries, taken as they are. *)
Record GoLib : Type := mkGoLib {
  Quote : string -> string;              (* the %q verb: strconv.Quote *)
  ParseCIDR : string -> option error;    (* net.ParseCIDR, its error *)
  TrimFuncIsSpace : string -> string;    (* bytes.TrimFunc(s, unicode.IsSpace) *)
  Join : list string -> string;          (* filepath.Join *)
  ModulePath : string -> string;         (* modfile.ModulePath *)
  UnmarshalNetworks : string -> result (list NetworkDescription);
  UnmarshalContainers : string -> result (list ContainerDescription)
                                         (* json.Unmarshal at the two types *)
}.

(** Constants and pure helpers of the repository's other packages
    (cobraext, profile, packages, common, stack), taken as they are. *)
Record Internal : Type := mkInternal {
  (* cobraext *)
  StackNameFlagName : string;
  InterfaceFlagName : string;
  InterfaceFlagDescription : string;
  IPSubnetFlagName : string;
  StackOverlayNetworkNameFlagName : string;
  ManifestKeyFlagName : string;
  ManifestValueFlagName : string;
  FlagParsingError : error -> string -> error;
  (* profile *)
  SwarmProfile : string;
  DefaultProfile : string;
  SnapshotFile : string;
  (* packages *)
  PackageManifestFile : string;
  (* common: trims the elements of the slice in place *)
  TrimStringSlice : list string -> list string;
  (* stack *)
  stackVariantAsEnv : string -> string
}.

(** ** The monad of the embedding

    A computation reads the history, and returns a value (or panics)
    together with the events it has added, oldest first. *)
Inductive outcome (A : Type) : Type :=
| Ret (a : A)
| Panic (msg : string).
Arguments Ret {A} a.
Arguments Panic {A} msg.

Definition M (A : Type) : Type := trace -> outcome A * trace.

Definition ret {A} (a : A) : M A := fun _ => (Ret a, []).

Definition bind {A B} (m : M A) (k : A -> M B) : M B :=
  fun h =>
    match m h with
    | (Ret a, ev1) =>
        match k a (h ++ ev1) with
        | (r, ev2) => (r, ev1 ++ ev2)
        end
    | (Panic msg, ev1) => (Panic msg, ev1)
    end.

Definition emit (e : Event) : M unit := fun _ => (Ret tt, [e]).
Definition ask {A} (q : trace -> A) : M A := fun h => (Ret (q h), []).

Declare Scope go_scope.
Delimit Scope go_scope with go.
Notation "x <- m ;; k" := (bind m (fun x => k))
  (at level 100, m at next level, right associativity) : go_scope.
Notation "' p <- m ;; k" := (bind m (fun x => match x with p => k end))
  (at level 100, p pattern, m at next level, right associativity) : go_scope.
Notation "m ;; k" := (bind m (fun _ => k))
  (at level 100, right associativity) : go_scope.
Notation "x <-- m 'orelse' f ;; k" :=
  (bind m (fun r => match r with Ok x => k | Err e => ret (f e) end))
  (at level 100, m at next level, f at next level, right associativity) : go_scope.
Notation "'check' m 'orelse' f ;; k" :=
  (bind m (fun r => match r with None => k | Some e => ret (f e) end))
  (at level 100, m at next level, f at next level, right associativity) : go_scope.
Local Open Scope go_scope.

(** [errors.Wrap(err, msg)] as a function of the error, and the plain
    [return err]. *)
Definition Wrap (msg : string) (e : error) : option error := Some (withMessage e msg).
Definition WrapErr {A} (msg : string) (e : error) : result A := Err (withMessage e msg).
Definition asIs (e : error) : option error := Some e.

(** ** bytes / strings helpers of the Go library, written out *)

Fixpoint revOnto (s acc : string) : string :=
  match s with
  | EmptyString => acc
  | String c s' => revOnto s' (String c acc)
  end.
Definition reverse (s : string) : string := revOnto s EmptyString.

(** The [asciiSpace] table of package [bytes]: tab, LF, VT, FF, CR, space. *)
Definition asciiSpace (c : ascii) : bool :=
  let n := nat_of_ascii c in
  ((n =? 9) || (n =? 10) || (n =? 11) || (n =? 12) || (n =? 13) || (n =? 32))%nat.

(** [utf8.RuneSelf]: bytes from 0x80 on are not ASCII. *)
Definition RuneSelf : nat := 128.

Inductive scan : Type :=
| Stopped (rest : string)
| NonASCII (rest : string).

(** One of the two loops of [bytes.TrimSpace]: skip ASCII spaces; stop at
    the first other ASCII byte, or give up at a byte that is not ASCII. *)
Fixpoint skipSpace (s : string) : scan :=
  match s with
  | EmptyString => Stopped EmptyString
  | String c s' =>
      if (RuneSelf <=? nat_of_ascii c)%nat then NonASCII s
      else if asciiSpace c then skipSpace s'
      else Stopped s
  end.

(** [bytes.Split(s, []byte{sep})] for a separator of one byte:
    one piece more than there are separators, so never no piece. *)
Fixpoint Split (s : string) (sep : ascii) : list string :=
  match s with
  | EmptyString => [EmptyString]
  | String c s' =>
      if Ascii.eqb c sep then EmptyString :: Split s' sep
      else match Split s' sep with
           | piece :: rest => String c piece :: rest
           | [] => [String c EmptyString]
           end
  end.

(** [bytes.Count(s, []byte{sep})] *)
Fixpoint Count (s : string) (sep : ascii) : nat :=
  match s with
  | EmptyString => 0
  | String c s' => (if Ascii.eqb c sep then 1 else 0) + Count s' sep
  end.

(** * Package docker *)
Module docker.
Section Docker.
Variable lib : GoLib.
Variable w : World.

(** [bytes.TrimSpace]: the ASCII fast path from the front, then from the
    back; at a byte that is not ASCII the rest goes to
    [TrimFunc(_, unicode.IsSpace)]. *)
Definition TrimSpace (s : string) : string :=
  match skipSpace s with
  | NonASCII r => TrimFuncIsSpace lib r
  | Stopped r =>
      match skipSpace (reverse r) with
      | NonASCII r' => TrimFuncIsSpace lib (reverse r')
      | Stopped r' => reverse r'
      end
  end.

(** What the caller finds in the buffer it attached to a stream. *)
Definition buffered (s : Stream) (data : string) : string :=
  match s with
  | Buffer => data
  | _ => EmptyString
  end.

Definition start (c : Cmd) : M Completed :=
  fun h => (Ret (process w h c), [EvStart c]).

(** [cmd.Run()]: the error, and the content of the stderr buffer. *)
Definition Run (c : Cmd) : M (option error * string) :=
  r <- start c ;;
  ret (exitError r, buffered (Stderr c) (stderrData r)).

(** [cmd.Output()]: refuses a command whose Stdout is set; collects
    stdout; a command without Stderr gets a buffer that ends up in the
    [ExitError] only (not in its message). *)
Definition Output (c : Cmd) : M (string * option error * string) :=
  match Stdout c with
  | Discard =>
      let c' := setStdout Buffer c in
      let c' := match Stderr c with Discard => setStderr Buffer c' | _ => c' end in
      r <- start c' ;;
      ret (stdoutData r, exitError r, buffered (Stderr c) (stderrData r))
  | _ => ret (EmptyString, Some (errorString "exec: Stdout already set"), EmptyString)
  end.

(** The debug wiring of [Pull], [SwarmStackDown] and [stackDeploy]. *)
Definition debugStreams (c : Cmd) : Cmd :=
  if IsDebugMode w then setStderr Console (setStdout Console c) else c.

Definition stderrNote (errOutput : string) : string :=
  "(stderr=" +++ Quote lib errOutput +++ ")".

Definition Pull (image : string) : M (option error) :=
  let cmd := debugStreams (Command "docker" ["pull"; image]) in
  emit (EvDebugf "run command: %s" cmd) ;;
  '(err, _) <- Run cmd ;;
  match err with
  | Some e => ret (Some (withMessage e "running docker command failed"))
  | None => ret None
  end.

(** The command of [ContainerID], as it stands before [cmd.Output()]. *)
Definition psCmd (containerName : string) : Cmd :=
  let cmd := Command "docker"
               ["ps"; "--filter"; "name=" +++ containerName; "--format"; "{{.ID}}"] in
  setStderr Buffer cmd.

Definition ContainerID (containerName : string) : M (result string) :=
  let cmd := psCmd containerName in
  emit (EvDebugf "output command: %s" cmd) ;;
  '(output, err, errOutput) <- Output cmd ;;
  match err with
  | Some e =>
      ret (Err (withMessage e
        ("could not find " +++ dquote +++ containerName +++ dquote
           +++ " container " +++ stderrNote errOutput)))
  | None =>
      let containerIDs := Split (TrimSpace output) LF in
      if negb (length containerIDs =? 1)%nat
      then ret (Err (errorString ("expected single " +++ containerName +++ " container")))
      else ret (Ok (nth 0 containerIDs EmptyString))
  end.

(** What the world answers to the listing process that [ContainerID]
    runs when it is called at history [h]. *)
Definition psAnswer (containerName : string) (h : trace) : Completed :=
  process w (h ++ [EvDebugf "output command: %s" (psCmd containerName)])
    (setStdout Buffer (psCmd containerName)).

Definition InspectNetwork (network : string) : M (result (list NetworkDescription)) :=
  let cmd := setStderr Buffer (Command "docker" ["network"; "inspect"; network]) in
  emit (EvDebugf "output command: %s" cmd) ;;
  '(output, err, errOutput) <- Output cmd ;;
  match err with
  | Some e =>
      ret (WrapErr ("could not inspect the network " +++ stderrNote errOutput) e)
  | None =>
      match UnmarshalNetworks lib output with
      | Err e =>
          ret (WrapErr ("can't unmarshal network inspect for " +++ network
                          +++ " " +++ stderrNote errOutput) e)
      | Ok networkDescriptions => ret (Ok networkDescriptions)
      end
  end.

Definition ConnectToNetwork (containerID network : string) : M (option error) :=
  let cmd := setStderr Buffer
               (Command "docker" ["network"; "connect"; network; containerID]) in
  emit (EvDebugf "run command: %s" cmd) ;;
  '(err, errOutput) <- Run cmd ;;
  match err with
  | Some e =>
      ret (Wrap ("could not attach container to the stack network "
                   +++ stderrNote errOutput) e)
  | None => ret None
  end.

Definition CreateNetwork (name driver : string) (arg : list string) : M (option error) :=
  let netcmd := ["network"; "create"; "--driver"; driver] in
  let netcmd := if (0 <? length arg)%nat then netcmd ++ arg else netcmd in
  let netcmd := netcmd ++ [name] in
  let cmd := setStderr Buffer (Command "docker" netcmd) in
  emit (EvDebugf "run command: %s" cmd) ;;
  '(err, errOutput) <- Run cmd ;;
  match err with
  | Some e => ret (Wrap ("could not create stack network " +++ stderrNote errOutput) e)
  | None => ret None
  end.

Definition InspectContainers (containerIDs : list string)
  : M (result (list ContainerDescription)) :=
  let args := ["inspect"] ++ containerIDs in
  let cmd := setStderr Buffer (Command "docker" args) in
  emit (EvDebugf "output command: %s" cmd) ;;
  '(output, err, errOutput) <- Output cmd ;;
  match err with
  | Some e => ret (WrapErr ("could not inspect containers " +++ stderrNote errOutput) e)
  | None =>
      match UnmarshalContainers lib output with
      | Err e =>
          ret (WrapErr ("can't unmarshal container inspect for "
                          +++ String.concat "," containerIDs
                          +++ " " +++ stderrNote errOutput) e)
      | Ok containerDescriptions => ret (Ok containerDescriptions)
      end
  end.

Definition Copy (containerName containerPath localPath : string) : M (option error) :=
  let cmd := setStderr Buffer
               (Command "docker"
                  ["cp"; containerName +++ ":" +++ containerPath; localPath]) in
  emit (EvDebugf "run command: %s" cmd) ;;
  '(err, errOutput) <- Run cmd ;;
  match err with
  | Some e =>
      ret (Wrap ("could not copy files from the container " +++ stderrNote errOutput) e)
  | None => ret None
  end.

Definition swarmJoinToken : M (result string) :=
  let swarmArg := ["swarm"; "join-token"; "worker"] in
  let cmd := setStderr Buffer (Command "docker" swarmArg) in
  emit (EvDebugf "run command: %s" cmd) ;;
  '(out, err, errOutput) <- Output cmd ;;
  match err with
  | Some e => ret (WrapErr ("unable to get join token " +++ stderrNote errOutput) e)
  | None => ret (Ok out)
  end.

Definition SwarmInit (ift : string) : M (result string) :=
  let swarmArg := ["swarm"; "init"; "--advertise-addr"; ift] in
  let cmd := setStderr Buffer (Command "docker" swarmArg) in
  emit (EvDebugf "run command: %s" cmd) ;;
  '(err, errOutput) <- Run cmd ;;
  match err with
  | Some e => ret (WrapErr ("docker swarm init failed " +++ stderrNote errOutput) e)
  | None =>
      r <- swarmJoinToken ;;
      match r with
      | Err e => emit (EvLogError e) ;; ret (Err e)
      | Ok joinToken => ret (Ok joinToken)
      end
  end.

(** The command of [SwarmLeave], as it is run. *)
Definition leaveCmd : Cmd :=
  let swarmArg := ["swarm"; "leave"; "--force"] in
  setStderr Buffer (Command "docker" swarmArg).

Definition SwarmLeave : M (option error) :=
  let cmd := leaveCmd in
  emit (EvDebugf "run command: %s" cmd) ;;
  '(err, errOutput) <- Run cmd ;;
  match err with
  | Some e => ret (Wrap ("docker swarm leave failed " +++ stderrNote errOutput) e)
  | None => ret None
  end.

Definition SwarmStackDown (stackName : string) : M (option error) :=
  let args := [] ++ ["stack"] ++ ["rm"] ++ [stackName] in
  let cmd := debugStreams (Command "docker" args) in
  emit (EvDebugf "running command: %s" cmd) ;;
  '(err, _) <- Run cmd ;;
  ret err.

(** The functions of the package that run a process, each with its
    arguments, and the error each one returns. *)
Inductive Call : Type :=
| CallPull (image : string)
| CallContainerID (containerName : string)
| CallInspectNetwork (network : string)
| CallConnectToNetwork (containerID network : string)
| CallCreateNetwork (name driver : string) (arg : list string)
| CallInspectContainers (containerIDs : list string)
| CallCopy (containerName containerPath localPath : string)
| CallSwarmInit (ift : string)
| CallSwarmJoinToken
| CallSwarmLeave
| CallSwarmStackDown (stackName : string).

Definition errorOnly {A} (m : M (result A)) : M (option error) :=
  r <- m ;; ret (errOf r).

Definition invoke (call : Call) : M (option error) :=
  match call with
  | CallPull image => Pull image
  | CallContainerID containerName => errorOnly (ContainerID containerName)
  | CallInspectNetwork network => errorOnly (InspectNetwork network)
  | CallConnectToNetwork containerID network => ConnectToNetwork containerID network
  | CallCreateNetwork name driver arg => CreateNetwork name driver arg
  | CallInspectContainers containerIDs => errorOnly (InspectContainers containerIDs)
  | CallCopy containerName containerPath localPath =>
      Copy containerName containerPath localPath
  | CallSwarmInit ift => errorOnly (SwarmInit ift)
  | CallSwarmJoinToken => errorOnly swarmJoinToken
  | CallSwarmLeave => SwarmLeave
  | CallSwarmStackDown stackName => SwarmStackDown stackName
  end.

(** The functions that attach a buffer to the stderr of their process:
    all but [Pull] and [SwarmStackDown]. *)
Definition buffersStderr (call : Call) : bool :=
  match call with
  | CallPull _ | CallSwarmStackDown _ => false
  | _ => true
  end.

(** Every process of the call has a buffer on stderr, and when a process
    fails the call returns an error whose message holds the text of that
    buffer, as the %q verb prints it. *)
Definition stderrCaptured (call : Call) (h : trace) : Prop :=
  forall pre c post,
    snd (invoke call h) = pre ++ EvStart c :: post ->
    Stderr c = Buffer
    /\ forall x,
         exitError (process w (h ++ pre) c) = Some x ->
         exists e,
           fst (invoke call h) = Ret (Some e)
           /\ Contains (Error e) (Quote lib (stderrData (process w (h ++ pre) c))).

(** Every process of the call has its stderr on the console in debug
    mode and nowhere otherwise, and when a process fails the call returns
    the error of the process, bare or wrapped with a fixed message. *)
Definition stderrStreamed (call : Call) (h : trace) : Prop :=
  forall pre c post,
    snd (invoke call h) = pre ++ EvStart c :: post ->
    Stderr c = (if IsDebugMode w then Console else Discard)
    /\ forall x,
         exitError (process w (h ++ pre) c) = Some x ->
         fst (invoke call h) = Ret (Some x)
         \/ fst (invoke call h) = Ret (Some (withMessage x "running docker command failed")).

End Docker.
End docker.

(** * Package cmd: the swarm commands (stack_swarm.go) *)
Module swarm.
Section Swarm.
Variable lib : GoLib.
Variable int : Internal.
Variable w : World.

Definition interfaceByName (name : string) : M (option error) :=
  ask (fun h => InterfaceByName w h name).

Definition createProfile (o : ProfileOptions) : M (option error) :=
  fun h => (Ret (CreateProfile w h o), [EvCreateProfile o]).

(** [cmd.Println(s)] *)
Definition Println (s : string) : M unit := emit (EvPrint (s +++ newline)).

Definition createOverlayNetwork (networkName subnet : string) : M (option error) :=
  match ParseCIDR lib subnet with
  | Some e => ret (Wrap "create overlay network failed" e)
  | None =>
      let overlayArgs := ["--subnet"; subnet; "--attachable"] in
      docker.CreateNetwork lib w networkName "overlay" overlayArgs
  end.

(** The [profile.Options] that [stackInit] builds. *)
Definition swarmOptions : ProfileOptions :=
  {| Name := SwarmProfile int;
     FromProfile := DefaultProfile int;
     OverwriteExisting := true |}.

(** Events that change something outside the process: every child
    process and every step on files and profiles; not logging, not printing. *)
Definition mutates (ev : Event) : bool :=
  match ev with
  | EvDebugf _ _ | EvLogError _ | EvPrint _ => false
  | _ => true
  end.

Definition stackInit : M (option error) :=
  iftname <-- ret (GetString w (InterfaceFlagName int))
    orelse (fun e => Some (FlagParsingError int e (InterfaceFlagDescription int))) ;;
  check interfaceByName iftname
    orelse Wrap "cannot create docker swarm without overlay network interface" ;;
  subnet <-- ret (GetString w (IPSubnetFlagName int))
    orelse (fun e => Some (FlagParsingError int e (IPSubnetFlagName int))) ;;
  overlayNetworkName <-- ret (GetString w (StackOverlayNetworkNameFlagName int))
    orelse (fun e => Some (FlagParsingError int e (StackOverlayNetworkNameFlagName int))) ;;
  let options := swarmOptions in
  check createProfile options orelse Wrap "swarm profile creation has failed" ;;
  joinToken <-- docker.SwarmInit lib w iftname
    orelse Wrap "docker swarm creation has failed" ;;
  err <- createOverlayNetwork overlayNetworkName subnet ;;
  match err with
  | Some e =>
      docker.SwarmLeave lib w ;;
      ret (Wrap "cannot initialize swarm" e)
  | None =>
      Println joinToken ;;
      ret None
  end.

Definition swarmDown : M (option error) :=
  Println "Shutdown the Elastic stack (on swarm)" ;;
  stackName <-- ret (GetString w (StackNameFlagName int))
    orelse (fun e => Some (FlagParsingError int e (StackNameFlagName int))) ;;
  check docker.SwarmStackDown w stackName orelse Wrap "booting up the stack failed" ;;
  Println "Done" ;;
  ret None.

Definition swarmLeave : M (option error) := docker.SwarmLeave lib w.

(** The reading of "the subnet is validated before any mutation": with a
    subnet flag that fails CIDR parsing, [stackInit] fails and none of
    its events changes anything outside. *)
Definition validatesSubnetFirst (h : trace) : Prop :=
  forall subnet,
    GetString w (IPSubnetFlagName int) = Ok subnet ->
    ParseCIDR lib subnet <> None ->
    (exists e, fst (stackInit h) = Ret (Some e))
    /\ forall ev, In ev (snd (stackInit h)) -> mutates ev = false.

End Swarm.
End swarm.

(** * Package cmd: the manifest query (query.go) *)

(** What [queryPackageManifest] asks of a [*ucfg.Config]. *)
Class UcfgConfig (Config : Type) : Type := {
  FlattenedKeys : Config -> list string;            (* cfg.FlattenedKeys(opts...) *)
  CfgString : Config -> string -> nat -> result string   (* cfg.String(name, idx, opts...) *)
}.

Module query.

Definition elasticIntegrations : string := "github.com/elastic/integrations".
Definition packagesDir : string := "packages".

Section Query.
Variable lib : GoLib.
Variable int : Internal.
Variable w : World.
Context {Config : Type} {ucfg : UcfgConfig Config}.
(** [yaml.NewConfigWithFile(path, ucfg.PathSep("."))] *)
Variable NewConfigWithFile : trace -> string -> result Config.

Definition Println (s : string) : M unit := emit (EvPrint (s +++ newline)).

(** [cmd.Println(" ", v)]: the operands are separated by a space. *)
Definition Println2 (v : string) : M unit := Println (" " +++ " " +++ v).

Fixpoint printAll (l : list string) : M unit :=
  match l with
  | [] => ret tt
  | v :: rest => Println2 v ;; printAll rest
  end.

Definition queryCheck : M (option error) :=
  check ask (fun h => Open w h "./go.mod")
    orelse Wrap "query must be executed from the integrations project root directory" ;;
  b <-- ask (fun h => ReadAll w h "./go.mod") orelse asIs ;;
  let modulePath := ModulePath lib b in
  if negb (String.eqb modulePath elasticIntegrations)
  then ret (Some (errorString
                    "query must be executed from the integrations project root directory"))
  else ret None.

(** The loop of [queryPackageManifest] over the flattened keys: the first
    key equal to the queried one decides. [values[0]] panics on an empty
    slice, and is reached only after [cfg.String] has succeeded. *)
Fixpoint firstKey (key : string) (values : list string) (cfg : Config)
  (flattenedKeys : list string) : outcome bool :=
  match flattenedKeys with
  | [] => Ret false
  | f :: rest =>
      if String.eqb key f then
        match CfgString cfg f 0 with
        | Ok v =>
            match values with
            | v0 :: _ => if String.eqb v v0 then Ret true else Ret false
            | [] => Panic "runtime error: index out of range [0] with length 0"
            end
        | Err _ => Ret false
        end
      else firstKey key values cfg rest
  end.

Definition queryPackageManifest (key : string) (values : list string) (cfg : Config)
  : outcome bool :=
  firstKey key values cfg (FlattenedKeys cfg).

Definition lift {A} (o : outcome A) : M A := fun _ => (o, []).

(** The loop of [queryManifest] over the directory entries, with the two
    slices it appends to. *)
Fixpoint scanPackages (key : string) (values : list string) (ppath : string)
  (pkgs : list FileInfo) (skipped found : list string)
  : M (list string * list string) :=
  match pkgs with
  | [] => ret (skipped, found)
  | pkg :: rest =>
      if IsDir pkg then
        let manifestFile := Join lib [ppath; FileName pkg; PackageManifestFile int] in
        r <- ask (fun h => NewConfigWithFile h manifestFile) ;;
        match r with
        | Err e =>
            scanPackages key values ppath rest
              (skipped ++ [FileName pkg +++ ": " +++ Error e]) found
        | Ok cfg =>
            b <- lift (queryPackageManifest key values cfg) ;;
            if b
            then scanPackages key values ppath rest skipped (found ++ [FileName pkg])
            else scanPackages key values ppath rest skipped found
        end
      else scanPackages key values ppath rest skipped found
  end.

Definition queryManifest : M (option error) :=
  check queryCheck orelse asIs ;;
  let key := match GetString w (ManifestKeyFlagName int) with
             | Ok k => k
             | Err _ => EmptyString
             end in
  values <-- ret (GetStringSlice w (ManifestValueFlagName int))
    orelse (fun e => Some (FlagParsingError int e (ManifestValueFlagName int))) ;;
  let values := TrimStringSlice int values in
  let ppath := Join lib ["."; packagesDir] in
  pkgs <-- ask (fun h => ReadDir w h ppath)
    orelse Wrap "cannot find package directories" ;;
  '(skipped, found) <- scanPackages key values ppath pkgs [] [] ;;
  (if (0 <? length skipped)%nat
   then Println "Skipped packages:" ;; printAll skipped
   else ret tt) ;;
  if (length found =? 0)%nat then
    Println "key with value not found in any packages" ;;
    ret None
  else
    (if (0 <? length found)%nat
     then Println "Packages:" ;; printAll found
     else ret tt) ;;
    ret None.

(** The manifest of a package directory, as the loop loads it. *)
Definition manifestOf (h : trace) (ppath : string) (pkg : FileInfo) : result Config :=
  NewConfigWithFile h (Join lib [ppath; FileName pkg; PackageManifestFile int]).

(** A directory whose manifest loads and matches. *)
Definition matches (key : string) (values : list string) (h : trace) (ppath : string)
  (pkg : FileInfo) : bool :=
  IsDir pkg &&
  match manifestOf h ppath pkg with
  | Ok cfg =>
      match queryPackageManifest key values cfg with
      | Ret true => true
      | _ => false
      end
  | Err _ => false
  end.

(** The names of the matching packages, in the order of the listing. *)
Definition matched (key : string) (values : list string) (h : trace) (ppath : string)
  (pkgs : list FileInfo) : list string :=
  map FileName (filter (matches key values h ppath) pkgs).

(** The line recorded for a directory whose manifest does not load. *)
Definition skippedEntry (h : trace) (ppath : string) (pkg : FileInfo) : list string :=
  if IsDir pkg then
    match manifestOf h ppath pkg with
    | Err e => [FileName pkg +++ ": " +++ Error e]
    | Ok _ => []
    end
  else [].

Definition skippedOf (h : trace) (ppath : string) (pkgs : list FileInfo) : list string :=
  flat_map (skippedEntry h ppath) pkgs.

End Query.
End query.

(** * Package stack: deploy *)
Module stack.

(** Modelled from the spec: the environment builder of package [stack]
    ([newEnvBuilder], [withEnvs], [withEnv], [build]) lives in another
    file of the package.  The design says the variable sets are merged in
    order by simple concatenation. *)
Definition envBuilder : Type := list string.
Definition newEnvBuilder : envBuilder := [].
Definition withEnvs (envs : list string) (eb : envBuilder) : envBuilder := eb ++ envs.
Definition withEnv (env : string) (eb : envBuilder) : envBuilder := eb ++ [env].
Definition build (eb : envBuilder) : list string := eb.

Section Stack.
Variable int : Internal.
Variable w : World.

Definition Print (s : string) : M unit := emit (EvPrint s).

Definition clearDir (dir : string) : M (option error) :=
  fun h => (Ret (ClearDir w h dir), [EvClearDir dir]).

Definition copyAll (src dst : string) : M (option error) :=
  fun h => (Ret (CopyAll w h src dst), [EvCopyAll src dst]).

Definition composeBuild (options : Options) : M (option error) :=
  fun h => (Ret (dockerComposeBuild w h options), [EvComposeBuild options]).

(** The variables that [stackDeploy] puts together with the builder:
    image references of the version, variant of the version, compose
    variables of the profile. *)
Definition mergedEnv (options : Options) (appConfig : ApplicationConfiguration)
  : list string :=
  build
    (withEnvs (ComposeEnvVars (OptProfile options))
       (withEnv (stackVariantAsEnv int (StackVersion options))
          (withEnvs (StackImageRefsAsEnv appConfig (StackVersion options))
             newEnvBuilder))).

Definition stackDeploy (options : Options) : M (option error) :=
  let composeFile := FetchPath (OptProfile options) (SnapshotFile int) in
  let args := [] ++ ["stack"] ++ ["deploy"] ++ ["--compose-file"]
                 ++ [composeFile] ++ [StackName options] in
  appConfig <-- ask (Configuration w)
    orelse Wrap "can't read application configuration" ;;
  let envs := mergedEnv options appConfig in
  environ <- ask (Environ w) ;;
  let cmd := setEnv (environ ++ envs) (Command "docker" args) in
  let cmd := docker.debugStreams w cmd in
  emit (EvDebugf "running command: %s" cmd) ;;
  '(err, _) <- docker.Run w cmd ;;
  ret err.

Definition Deploy (options : Options) : M (option error) :=
  dir <-- ask (FindBuildPackagesDirectory w)
    orelse Wrap "finding build packages directory failed" ;;
  let buildPackagesPath := fst dir in
  let found := snd dir in
  stackPackagesDir <-- ask (NewLocationManager w)
    orelse Wrap "locating stack packages directory failed" ;;
  check clearDir (PackagesDir stackPackagesDir)
    orelse Wrap "clearing package contents failed" ;;
  check (if found then
           Print ("Custom build packages directory found: "
                    +++ buildPackagesPath +++ newline) ;;
           copyAll buildPackagesPath (PackagesDir stackPackagesDir)
         else ret None)
    orelse Wrap "copying package contents failed" ;;
  Print ("Packages from the following directories will be loaded into the package-registry:"
           +++ newline) ;;
  Print ("- built-in packages (package-storage:snapshot Docker image)" +++ newline) ;;
  (if found then Print ("- " +++ buildPackagesPath +++ newline) else ret tt) ;;
  check composeBuild options orelse Wrap "building docker images failed" ;;
  check stackDeploy options orelse Wrap "running docker stack deploy failed" ;;
  ret None.

(** The steps of [Deploy] that can fail after something was done: the
    message under which [Deploy] reports the failure of each, and what
    the world answers to each at a given history. *)
Definition stage (ev : Event) : option string :=
  match ev with
  | EvClearDir _ => Some "clearing package contents failed"
  | EvCopyAll _ _ => Some "copying package contents failed"
  | EvComposeBuild _ => Some "building docker images failed"
  | EvStart _ => Some "running docker stack deploy failed"
  | _ => None
  end.

Definition answer (h : trace) (ev : Event) : option error :=
  match ev with
  | EvClearDir dir => ClearDir w h dir
  | EvCopyAll src dst => CopyAll w h src dst
  | EvComposeBuild options => dockerComposeBuild w h options
  | EvStart c => exitError (process w h c)
  | _ => None
  end.

(** The messages by which [Deploy] names the stage that failed. *)
Definition stageMessages : list string :=
  ["finding build packages directory failed";
   "locating stack packages directory failed";
   "clearing package contents failed";
   "copying package contents failed";
   "building docker images failed";
   "running docker stack deploy failed"].

End Stack.
End stack.

(** * Concrete instances, for running the model *)
Module Example.

(** Library functions, good for the ASCII texts of the examples:
    [Quote] has nothing to escape, one subnet is valid, [Join] drops
    the [.] elements, a [go.mod] holds just its module path. *)
Definition lib : GoLib := {|
  Quote := fun s => dquote +++ s +++ dquote;
  ParseCIDR := fun s =>
    if String.eqb s "10.1.0.0/16" then None
    else Some (errorString ("invalid CIDR address: " +++ s));
  TrimFuncIsSpace := fun s => s;
  Join := fun elem =>
    String.concat "/" (filter (fun e => negb (String.eqb e ".")) elem);
  ModulePath := fun b => b;
  UnmarshalNetworks := fun _ => Ok [];
  UnmarshalContainers := fun _ => Ok []
|}.

Definition int : Internal := {|
  StackNameFlagName := "stack-name";
  InterfaceFlagName := "interface";
  InterfaceFlagDescription := "network interface name";
  IPSubnetFlagName := "ip-subnet";
  StackOverlayNetworkNameFlagName := "overlay-network-name";
  ManifestKeyFlagName := "manifest-key";
  ManifestValueFlagName := "manifest-value";
  FlagParsingError := fun e flagName =>
    withMessage e ("error parsing --" +++ flagName +++ " flag");
  SwarmProfile := "swarm";
  DefaultProfile := "default";
  SnapshotFile := "snapshot.yml";
  PackageManifestFile := "manifest.yml";
  TrimStringSlice := fun values => values;
  stackVariantAsEnv := fun version => "B=2"
|}.

Fixpoint lookup {A} (k : string) (l : list (string * A)) : option A :=
  match l with
  | [] => None
  | (k', a) :: rest => if String.eqb k k' then Some a else lookup k rest
  end.

Definition exitStatus1 : error := errorString "exit status 1".

(** A process that exits 0 with the given output, and one that exits 1
    with the given text on stderr. *)
Definition succeeds (out : string) : Completed := mkCompleted None out EmptyString.
Definition fails (err : string) : Completed := mkCompleted (Some exitStatus1) EmptyString err.

(** What one example run is given. *)
Record Scenario : Type := mkScenario {
  flags : list (string * string);
  values : list string;
  debug : bool;
  proc : Cmd -> Completed;
  entries : list FileInfo;
  customDir : string * bool
}.

Definition world (s : Scenario) : World := {|
  GetString := fun name =>
    match lookup name (flags s) with
    | Some v => Ok v
    | None => Err (errorString ("flag accessed but not defined: " +++ name))
    end;
  GetStringSlice := fun _ => Ok (values s);
  IsDebugMode := debug s;
  process := fun _ c => proc s c;
  Environ := fun _ => ["PATH=/usr/bin"];
  InterfaceByName := fun _ _ => None;
  ReadDir := fun _ _ => Ok (entries s);
  Open := fun _ _ => None;
  ReadAll := fun _ _ => Ok "github.com/elastic/integrations";
  CreateProfile := fun _ _ => None;
  FindBuildPackagesDirectory := fun _ => Ok (customDir s);
  NewLocationManager := fun _ => Ok (mkLocationManager "/stack/packages");
  ClearDir := fun _ _ => None;
  CopyAll := fun _ _ _ => None;
  dockerComposeBuild := fun _ _ => None;
  Configuration := fun _ => Ok (mkApplicationConfiguration (fun _ => ["A=1"]))
|}.

(** [swarm init] on interface eth0; every process succeeds, except that
    [docker network create] fails when [networkFails] is set. *)
Definition initScenario (subnet : string) (networkFails : bool) : Scenario := {|
  flags := [("interface", "eth0"); ("ip-subnet", subnet);
            ("overlay-network-name", "elastic-package-stack-overlay")];
  values := [];
  debug := false;
  proc := fun c =>
    if String.eqb (subcommand c) "network" && networkFails
    then fails "Error response from daemon: pool overlaps"
    else if String.eqb (subcommand c) "swarm" then succeeds "SWMTKN-1-abc"
    else succeeds EmptyString;
  entries := [];
  customDir := (EmptyString, false)
|}.

(** Every docker process fails, with [boom] on its stderr. *)
Definition failingScenario (debugMode : bool) : Scenario := {|
  flags := [];
  values := [];
  debug := debugMode;
  proc := fun _ => fails "boom";
  entries := [];
  customDir := (EmptyString, false)
|}.

(** [docker ps] prints one identifier. *)
Definition psScenario (out : string) : Scenario := {|
  flags := [];
  values := [];
  debug := false;
  proc := fun _ => succeeds out;
  entries := [];
  customDir := (EmptyString, false)
|}.

(** A manifest given by its flattened keys and their string values. *)
Definition FlatConfig : Type := list (string * string).

#[global] Instance flatConfig : UcfgConfig FlatConfig := {|
  FlattenedKeys := fun cfg => map fst cfg;
  CfgString := fun cfg name _ =>
    match lookup name cfg with
    | Some v => Ok v
    | None => Err (errorString ("missing field accessing " +++ name))
    end
|}.

(** The manifest files there are, each with what loading it gives. *)
Definition loader (files : list (string * result FlatConfig))
  : trace -> string -> result FlatConfig :=
  fun _ path =>
    match lookup path files with
    | Some r => r
    | None => Err (errorString ("open " +++ path +++ ": no such file or directory"))
    end.

Definition dir (name : string) : FileInfo := mkFileInfo name true.

(** The query [--manifest-key foo.bar --manifest-value x]. *)
Definition queryScenario (pkgs : list FileInfo) : Scenario := {|
  flags := [("manifest-key", "foo.bar")];
  values := ["x"];
  debug := false;
  proc := fun _ => succeeds EmptyString;
  entries := pkgs;
  customDir := (EmptyString, false)
|}.

(** Packages [a] with [foo.bar: x] and [b] with [foo.bar: y]. *)
Definition twoPackages : list (string * result FlatConfig) :=
  [("packages/a/manifest.yml", Ok [("foo.bar", "x")]);
   ("packages/b/manifest.yml", Ok [("foo.bar", "y")])].

(** The same with a package [broken] whose manifest does not parse. *)
Definition withBroken : list (string * result FlatConfig) :=
  ("packages/broken/manifest.yml",
   Err (errorString "yaml: line 1: did not find expected key")) :: twoPackages.

(** The deploy of stack [elastic] at version 8.1.0 with a profile whose
    compose variables are [C=3]. *)
Definition profile : Profile := {|
  ProfilePath := "/profiles/swarm";
  FetchPath := fun name => "/profiles/swarm/stack/" +++ name;
  ComposeEnvVars := ["C=3"]
|}.

Definition options : Options := {|
  SwarmMode := true;
  StackName := "elastic";
  StackVersion := "8.1.0";
  OptProfile := profile
|}.

Definition deployScenario (custom : bool) : Scenario := {|
  flags := [];
  values := [];
  debug := false;
  proc := fun _ => succeeds EmptyString;
  entries := [];
  customDir := ("/build/packages", custom)
|}.

End Example.

(** * Package elasticsearch: errors from response bodies *)
Module elasticsearch.
Section ErrorBody.
(** The type of a field declared [interface{}]. *)
Variable Any : Type.

Record Position : Type := mkPosition {
  Offset : Z;
  PosStart : Z;
  PosEnd : Z
}.

Record Suppressed : Type := mkSuppressed {
  SuppressedType : string;
  SuppressedReason : string;
  SuppressedProcessorType : string
}.

Record RootCause : Type := mkRootCause {
  RootType : string;
  RootReason : string;
  RootProcessorType : string;
  RootScriptStack : list string;
  RootScript : string;
  RootLang : string;
  RootPosition : Position;
  RootSuppressed : list Suppressed
}.

Record InnerCause : Type := mkInnerCause {
  InnerType : string;
  InnerReason : Any
}.

Record CausedBy : Type := mkCausedBy {
  CausedType : string;
  CausedReason : string;
  CausedCausedBy : InnerCause
}.

(** The [Error] field of [ErrorBody]. *)
Record ErrorDetail : Type := mkErrorDetail {
  RootCauses : list RootCause;
  ErrType : string;
  ErrReason : string;
  ErrProcessorType : string;
  ErrScriptStack : list string;
  ErrScript : string;
  ErrLang : string;
  ErrPosition : Position;
  ErrCausedBy : CausedBy;
  ErrSuppressed : list Suppressed
}.

Record ErrorBody : Type := mkErrorBody {
  ErrorField : ErrorDetail;
  Status : Z
}.

(** [json.NewDecoder(bytes.NewReader(body)).Decode(&errBody)], and
    [json.MarshalIndent(rootCauses, "", "  ")] as a string, its error
    dropped as in the code. *)
Variable Decode : string -> result ErrorBody.
Variable MarshalIndent : list RootCause -> string.

Definition NewError (body : string) : error :=
  match Decode body with
  | Ok errBody =>
      if (0 <? length (RootCauses (ErrorField errBody)))%nat then
        let rootCause := MarshalIndent (RootCauses (ErrorField errBody)) in
        errorString
          ("elasticsearch error (type=" +++ ErrType (ErrorField errBody) +++ "): "
             +++ ErrReason (ErrorField errBody) +++ newline
             +++ "Root cause:" +++ newline +++ rootCause)
      else
        errorString
          ("elasticsearch error (type=" +++ ErrType (ErrorField errBody) +++ "): "
             +++ ErrReason (ErrorField errBody))
  | Err _ => errorString ("elasticsearch error: " +++ body)
  end.

End ErrorBody.
End elasticsearch.

(** * Commands and reports, named for the statements *)
Module Cmds.

(** The command lines of package [docker], as the functions build them. *)
Definition swarmInit (ift : string) : Cmd :=
  setStderr Buffer (Command "docker" ["swarm"; "init"; "--advertise-addr"; ift]).

Definition joinToken : Cmd :=
  setStderr Buffer (Command "docker" ["swarm"; "join-token"; "worker"]).

Definition networkCreate (name driver : string) (arg : list string) : Cmd :=
  setStderr Buffer
    (Command "docker" (["network"; "create"; "--driver"; driver] ++ arg ++ [name])).

Definition networkInspect (network : string) : Cmd :=
  setStderr Buffer (Command "docker" ["network"; "inspect"; network]).

Definition inspect (containerIDs : list string) : Cmd :=
  setStderr Buffer (Command "docker" ("inspect" :: containerIDs)).

Definition stackRm (w : World) (stackName : string) : Cmd :=
  docker.debugStreams w (Command "docker" ["stack"; "rm"; stackName]).

(** The words of [docker stack deploy] in [stackDeploy]. *)
Definition stackDeployArgs (int : Internal) (options : Options) : list string :=
  ["docker"; "stack"; "deploy"; "--compose-file";
   FetchPath (OptProfile options) (SnapshotFile int); StackName options].

(** What [queryManifest] prints for its two lists. *)
Definition lines (l : list string) : trace :=
  map (fun v => EvPrint ((" " +++ " " +++ v) +++ newline)) l.

Definition report (skipped found : list string) : trace :=
  match skipped with
  | [] => []
  | _ => EvPrint ("Skipped packages:" +++ newline) :: lines skipped
  end
  ++ match found with
     | [] => [EvPrint ("key with value not found in any packages" +++ newline)]
     | _ => EvPrint ("Packages:" +++ newline) :: lines found
     end.

(** Every byte satisfies [p]; every byte is ASCII; every byte is an
    ASCII space. *)
Fixpoint all (p : ascii -> bool) (s : string) : bool :=
  match s with
  | EmptyString => true
  | String c s' => p c && all p s'
  end.

Definition allASCII : string -> bool :=
  all (fun c => (nat_of_ascii c <? RuneSelf)%nat).

Definition allSpace : string -> bool := all asciiSpace.

Definition first (s : string) : option ascii :=
  match s with
  | EmptyString => None
  | String c _ => Some c
  end.

Definition isSpace (o : option ascii) : bool :=
  match o with
  | Some c => asciiSpace c
  | None => false
  end.

End Cmds.

(** * More concrete instances *)
Module Cases.

(** The world [w], but without the network interface. *)
Definition withoutInterface (w : World) : World := {|
  GetString := GetString w;
  GetStringSlice := GetStringSlice w;
  IsDebugMode := IsDebugMode w;
  process := process w;
  Environ := Environ w;
  InterfaceByName := fun _ name =>
    Some (errorString ("route ip+net: no such network interface"));
  ReadDir := ReadDir w;
  Open := Open w;
  ReadAll := ReadAll w;
  CreateProfile := CreateProfile w;
  FindBuildPackagesDirectory := FindBuildPackagesDirectory w;
  NewLocationManager := NewLocationManager w;
  ClearDir := ClearDir w;
  CopyAll := CopyAll w;
  dockerComposeBuild := dockerComposeBuild w;
  Configuration := Configuration w
|}.

(** The world [w], but run from a module that is not the integrations one. *)
Definition elsewhere (w : World) : World := {|
  GetString := GetString w;
  GetStringSlice := GetStringSlice w;
  IsDebugMode := IsDebugMode w;
  process := process w;
  Environ := Environ w;
  InterfaceByName := InterfaceByName w;
  ReadDir := ReadDir w;
  Open := Open w;
  ReadAll := fun _ _ => Ok "github.com/elastic/beats";
  CreateProfile := CreateProfile w;
  FindBuildPackagesDirectory := FindBuildPackagesDirectory w;
  NewLocationManager := NewLocationManager w;
  ClearDir := ClearDir w;
  CopyAll := CopyAll w;
  dockerComposeBuild := dockerComposeBuild w;
  Configuration := Configuration w
|}.

(** [swarm init] succeeds, [swarm join-token] fails. *)
Definition joinTokenFails : Example.Scenario := {|
  Example.flags := [("interface", "eth0"); ("ip-subnet", "10.1.0.0/16");
                    ("overlay-network-name", "elastic-package-stack-overlay")];
  Example.values := [];
  Example.debug := false;
  Example.proc := fun c =>
    if String.eqb (nth 2 (Args c) EmptyString) "join-token"
    then Example.fails "Error response from daemon: This node is not a swarm manager."
    else Example.succeeds EmptyString;
  Example.entries := [];
  Example.customDir := (EmptyString, false)
|}.

(** [swarm down] of the stack [elastic]; every process exits as [exit] says. *)
Definition downScenario (exit : Completed) : Example.Scenario := {|
  Example.flags := [("stack-name", "elastic")];
  Example.values := [];
  Example.debug := true;
  Example.proc := fun _ => exit;
  Example.entries := [];
  Example.customDir := (EmptyString, false)
|}.

(** The query [--manifest-key foo.bar --manifest-value ""]: the value
    flag is set, and holds no value. *)
Definition noValueScenario (pkgs : list FileInfo) : Example.Scenario := {|
  Example.flags := [("manifest-key", "foo.bar")];
  Example.values := [];
  Example.debug := false;
  Example.proc := fun _ => Example.succeeds EmptyString;
  Example.entries := pkgs;
  Example.customDir := (EmptyString, false)
|}.

End Cases.

(** * Properties *)

(** ** Go library helpers *)

Lemma Split_length (s : string) (sep : ascii) :
  length (Split s sep) = S (Count s sep).
Proof.
  induction s as [|c s IH]; simpl; [reflexivity|].
  destruct (Ascii.eqb c sep); simpl.
  - now rewrite IH.
  - destruct (Split s sep) as [|piece rest]; simpl in *; congruence.
Qed.

(** ** Package docker *)

(** [ContainerID] written out: its two events, and how its result is
    read off the answer of the listing process. *)
Lemma ContainerID_run lib w name h :
  docker.ContainerID lib w name h =
  (Ret (let p := docker.psAnswer w name h in
        match exitError p with
        | Some e =>
            Err (withMessage e
                   ("could not find " +++ dquote +++ name +++ dquote +++ " container "
                      +++ docker.stderrNote lib (stderrData p)))
        | None =>
            let containerIDs := Split (docker.TrimSpace lib (stdoutData p)) LF in
            if negb (length containerIDs =? 1)%nat
            then Err (errorString ("expected single " +++ name +++ " container"))
            else Ok (nth 0 containerIDs EmptyString)
        end),
   [EvDebugf "output command: %s" (docker.psCmd name);
    EvStart (setStdout Buffer (docker.psCmd name))]).
Proof.
  unfold docker.ContainerID, docker.psAnswer, bind, emit, docker.Output, docker.start, ret.
  cbn.
  destruct (exitError _); [reflexivity|].
  destruct (negb _); reflexivity.
Qed.

(** C10: when the listing process of [ContainerID] succeeds, an error is
    returned only if (indeed exactly if) the trimmed output splits into two
    or more lines; on empty output the trimmed output splits into the single
    empty line, and the empty identifier is returned with a nil error. *)
Theorem ContainerID_error_only_on_many_lines lib w name h :
  exitError (docker.psAnswer w name h) = None ->
  let output := stdoutData (docker.psAnswer w name h) in
  let lines := Split (docker.TrimSpace lib output) LF in
  ((exists e, fst (docker.ContainerID lib w name h) = Ret (Err e))
     <-> 2 <= length lines)
  /\ (output = EmptyString ->
      lines = [EmptyString]
      /\ fst (docker.ContainerID lib w name h) = Ret (Ok EmptyString)).
Proof.
  intros Hok output lines.
  rewrite ContainerID_run. cbn [fst]. cbv zeta. rewrite Hok.
  fold output. fold lines.
  assert (Hlen : length lines = S (Count (docker.TrimSpace lib output) LF))
    by apply Split_length.
  split.
  - split.
    + intros [e He]. destruct (Nat.eqb_spec (length lines) 1) as [E|E].
      * cbn in He. discriminate.
      * lia.
    + intros H2. destruct (Nat.eqb_spec (length lines) 1) as [E|E]; [lia|].
      cbn. eauto.
  - intros Hempty. subst lines. rewrite Hempty. split; reflexivity.
Qed.

(** ** Package cmd: swarm init *)

Ltac norm_history :=
  repeat rewrite app_nil_r in *;
  repeat rewrite <- app_assoc in *;
  cbn [app] in *.

(** One step of a run: reduce the binds that have become redexes. *)
Ltac step := cbv beta iota; norm_history.

Lemma SwarmLeave_events lib w h :
  snd (docker.SwarmLeave lib w h) = [EvDebugf "run command: %s" docker.leaveCmd; EvStart docker.leaveCmd]
  /\ exists r, fst (docker.SwarmLeave lib w h) = Ret r.
Proof.
  unfold docker.SwarmLeave, docker.Run, docker.start, bind, emit, ret. cbn.
  destruct (exitError _); cbn; eauto.
Qed.

Lemma createOverlayNetwork_parse_error lib w networkName subnet h e :
  ParseCIDR lib subnet = Some e ->
  swarm.createOverlayNetwork lib w networkName subnet h
  = (Ret (Some (withMessage e "create overlay network failed")), []).
Proof.
  intros H. unfold swarm.createOverlayNetwork. rewrite H. reflexivity.
Qed.

(** C5: on a subnet that fails CIDR parsing, [createOverlayNetwork]
    returns the parse error (wrapped) and does nothing to the outside:
    it adds no event at all, so in particular runs no command. *)
Theorem createOverlayNetwork_invalid_subnet lib w networkName subnet h e :
  ParseCIDR lib subnet = Some e ->
  swarm.createOverlayNetwork lib w networkName subnet h
  = (Ret (Some (withMessage e "create overlay network failed")), [])
  /\ forall c, ~ In (EvStart c) (snd (swarm.createOverlayNetwork lib w networkName subnet h)).
Proof.
  intros H. rewrite (createOverlayNetwork_parse_error lib w networkName subnet h e H).
  split; [reflexivity | intros c []].
Qed.

Lemma createOverlayNetwork_invalid_subnet_witness :
  ParseCIDR Example.lib "10.1.0.0/33" = Some (errorString "invalid CIDR address: 10.1.0.0/33")
  /\ swarm.createOverlayNetwork Example.lib
       (Example.world (Example.initScenario "10.1.0.0/33" false))
       "elastic-package-stack-overlay" "10.1.0.0/33" []
     = (Ret (Some (withMessage (errorString "invalid CIDR address: 10.1.0.0/33")
                     "create overlay network failed")), []).
Proof.
  split; [reflexivity|].
  apply (createOverlayNetwork_invalid_subnet Example.lib
           (Example.world (Example.initScenario "10.1.0.0/33" false))
           "elastic-package-stack-overlay" "10.1.0.0/33" []
           (errorString "invalid CIDR address: 10.1.0.0/33")).
  reflexivity.
Defined.

(** A run of [stackInit] that gets to swarm init, succeeds there and
    fails to create the overlay network. *)
Lemma stackInit_compensates
  lib int w h iftname subnet networkName joinToken ev1 e ev2 :
  GetString w (InterfaceFlagName int) = Ok iftname ->
  InterfaceByName w h iftname = None ->
  GetString w (IPSubnetFlagName int) = Ok subnet ->
  GetString w (StackOverlayNetworkNameFlagName int) = Ok networkName ->
  CreateProfile w h (swarm.swarmOptions int) = None ->
  let h1 := h ++ [EvCreateProfile (swarm.swarmOptions int)] in
  docker.SwarmInit lib w iftname h1 = (Ret (Ok joinToken), ev1) ->
  swarm.createOverlayNetwork lib w networkName subnet (h1 ++ ev1) = (Ret (Some e), ev2) ->
  swarm.stackInit lib int w h
  = (Ret (Some (withMessage e "cannot initialize swarm")),
     [EvCreateProfile (swarm.swarmOptions int)] ++ ev1 ++ ev2
       ++ [EvDebugf "run command: %s" docker.leaveCmd; EvStart docker.leaveCmd]).
Proof.
  intros Hift Hif Hsub Hnet Hprof h1 Hinit Hnetw.
  unfold swarm.stackInit, swarm.interfaceByName, swarm.createProfile.
  cbv beta iota delta [bind ret ask].
  rewrite Hift. norm_history. rewrite Hif, Hsub, Hnet. norm_history.
  rewrite Hprof. cbv beta iota. norm_history.
  fold h1. rewrite Hinit. subst h1. norm_history. rewrite Hnetw.
  match goal with
  | |- context [docker.SwarmLeave lib w ?hh] =>
      destruct (SwarmLeave_events lib w hh) as [Hev [r Hr]];
      destruct (docker.SwarmLeave lib w hh) as [res evs]
  end.
  cbn in Hev, Hr. subst. norm_history. reflexivity.
Qed.

(** C1: in a run of [stackInit] that gets to swarm init (flags read,
    interface found, profile created), where swarm init succeeds and the
    creation of the overlay network then fails with [e], the events of the
    run end with the [docker swarm leave --force] process, issued after
    those of the failed creation, and the error returned is [e] wrapped. *)
Theorem stackInit_leaves_swarm_on_network_failure
  lib int w h iftname subnet networkName joinToken ev1 e ev2 :
  GetString w (InterfaceFlagName int) = Ok iftname ->
  InterfaceByName w h iftname = None ->
  GetString w (IPSubnetFlagName int) = Ok subnet ->
  GetString w (StackOverlayNetworkNameFlagName int) = Ok networkName ->
  CreateProfile w h (swarm.swarmOptions int) = None ->
  let h1 := h ++ [EvCreateProfile (swarm.swarmOptions int)] in
  docker.SwarmInit lib w iftname h1 = (Ret (Ok joinToken), ev1) ->
  swarm.createOverlayNetwork lib w networkName subnet (h1 ++ ev1) = (Ret (Some e), ev2) ->
  swarm.stackInit lib int w h
  = (Ret (Some (withMessage e "cannot initialize swarm")),
     [EvCreateProfile (swarm.swarmOptions int)] ++ ev1 ++ ev2
       ++ [EvDebugf "run command: %s" docker.leaveCmd; EvStart docker.leaveCmd])
  /\ Cause (withMessage e "cannot initialize swarm") = Cause e.
Proof.
  intros. split; [|reflexivity].
  eapply stackInit_compensates; eassumption.
Qed.

Lemma stackInit_leaves_swarm_on_network_failure_witness :
  let w := Example.world (Example.initScenario "10.1.0.0/16" true) in
  exists e,
    fst (swarm.stackInit Example.lib Example.int w [])
    = Ret (Some (withMessage e "cannot initialize swarm"))
    /\ In (EvStart docker.leaveCmd) (snd (swarm.stackInit Example.lib Example.int w [])).
Proof.
  cbv zeta. eexists.
  edestruct (stackInit_leaves_swarm_on_network_failure Example.lib Example.int
               (Example.world (Example.initScenario "10.1.0.0/16" true)) []
               "eth0" "10.1.0.0/16" "elastic-package-stack-overlay")
    as [H _]; [reflexivity | reflexivity | reflexivity | reflexivity | reflexivity
              | lazy; reflexivity | lazy; reflexivity | ].
  rewrite H. split; [reflexivity|]. cbn. intuition.
Defined.

(** [SwarmInit] never panics, and runs [docker swarm ...] processes only. *)
Lemma SwarmInit_shape lib w ift h :
  (exists r, fst (docker.SwarmInit lib w ift h) = Ret r)
  /\ forall c, In (EvStart c) (snd (docker.SwarmInit lib w ift h)) ->
               subcommand c = "swarm".
Proof.
  unfold docker.SwarmInit, docker.swarmJoinToken, docker.Run, docker.Output, docker.start,
    bind, ret, emit, WrapErr.
  cbn.
  repeat match goal with
         | |- context [exitError ?p] => destruct (exitError p)
         end;
    cbn; (split; [eexists; reflexivity|]);
    intros c Hin; cbn [In] in Hin;
    repeat match goal with
           | H : _ \/ _ |- _ => destruct H
           | H : False |- _ => destruct H
           | H : EvStart _ = EvStart _ |- _ => inversion H; clear H; subst
           | H : _ = EvStart _ |- _ => discriminate H
           end; reflexivity.
Qed.

(** The claim fails where everything up to the validation succeeds:
    with the subnet [10.1.0.0/33], [stackInit] has created the profile and
    run [docker swarm init] before it parses the subnet. *)
Lemma stackInit_mutates_before_subnet_is_parsed :
  ~ swarm.validatesSubnetFirst Example.lib Example.int
      (Example.world (Example.initScenario "10.1.0.0/33" false)) [].
Proof.
  intros H.
  destruct (H "10.1.0.0/33" eq_refl) as [_ Hm]; [discriminate|].
  specialize (Hm (EvStart (setStderr Buffer
                    (Command "docker" ["swarm"; "init"; "--advertise-addr"; "eth0"])))).
  assert (Hin : In (EvStart (setStderr Buffer
                    (Command "docker" ["swarm"; "init"; "--advertise-addr"; "eth0"])))
                  (snd (swarm.stackInit Example.lib Example.int
                          (Example.world (Example.initScenario "10.1.0.0/33" false)) []))).
  { vm_compute. intuition. }
  specialize (Hm Hin). discriminate Hm.
Qed.

(** C2, amended: with a subnet that fails CIDR parsing, [stackInit]
    fails, and every process it runs is a [docker swarm ...] one, so
    [docker network create] is never run.  The subnet is parsed only after
    the profile is created and swarm init has succeeded: a run that gets
    that far returns the parse error, wrapped twice, with the profile
    creation and the swarm init events first and the compensating
    [docker swarm leave --force] last. *)
Theorem stackInit_invalid_subnet lib int w h subnet e0 :
  GetString w (IPSubnetFlagName int) = Ok subnet ->
  ParseCIDR lib subnet = Some e0 ->
  (exists e, fst (swarm.stackInit lib int w h) = Ret (Some e))
  /\ (forall c, In (EvStart c) (snd (swarm.stackInit lib int w h)) ->
                subcommand c = "swarm")
  /\ (forall iftname networkName joinToken ev1,
        GetString w (InterfaceFlagName int) = Ok iftname ->
        InterfaceByName w h iftname = None ->
        GetString w (StackOverlayNetworkNameFlagName int) = Ok networkName ->
        CreateProfile w h (swarm.swarmOptions int) = None ->
        docker.SwarmInit lib w iftname (h ++ [EvCreateProfile (swarm.swarmOptions int)])
        = (Ret (Ok joinToken), ev1) ->
        swarm.stackInit lib int w h
        = (Ret (Some (withMessage (withMessage e0 "create overlay network failed")
                        "cannot initialize swarm")),
           [EvCreateProfile (swarm.swarmOptions int)] ++ ev1
             ++ [EvDebugf "run command: %s" docker.leaveCmd; EvStart docker.leaveCmd])).
Proof.
  intros Hsub Hcidr.
  assert (Hlast : forall iftname networkName joinToken ev1,
        GetString w (InterfaceFlagName int) = Ok iftname ->
        InterfaceByName w h iftname = None ->
        GetString w (StackOverlayNetworkNameFlagName int) = Ok networkName ->
        CreateProfile w h (swarm.swarmOptions int) = None ->
        docker.SwarmInit lib w iftname (h ++ [EvCreateProfile (swarm.swarmOptions int)])
        = (Ret (Ok joinToken), ev1) ->
        swarm.stackInit lib int w h
        = (Ret (Some (withMessage (withMessage e0 "create overlay network failed")
                        "cannot initialize swarm")),
           [EvCreateProfile (swarm.swarmOptions int)] ++ ev1
             ++ [EvDebugf "run command: %s" docker.leaveCmd; EvStart docker.leaveCmd])).
  { intros iftname networkName joinToken ev1 Hift Hif Hnet Hprof Hinit.
    rewrite (stackInit_compensates lib int w h iftname subnet networkName joinToken ev1
               (withMessage e0 "create overlay network failed") []
               Hift Hif Hsub Hnet Hprof Hinit
               (createOverlayNetwork_parse_error lib w networkName subnet _ e0 Hcidr)).
    reflexivity. }
  split; [clear Hlast|split; [clear Hlast|exact Hlast]].
  - unfold swarm.stackInit, swarm.interfaceByName, swarm.createProfile, Wrap.
    cbv beta iota delta [bind ret ask].
    destruct (GetString w (InterfaceFlagName int)) as [iftname|]; step; [|cbn; eauto].
    destruct (InterfaceByName w h iftname); step; [cbn; eauto|].
    rewrite Hsub; step.
    destruct (GetString w (StackOverlayNetworkNameFlagName int)) as [networkName|];
      step; [|cbn; eauto].
    destruct (CreateProfile w h (swarm.swarmOptions int)); step; [cbn; eauto|].
    destruct (SwarmInit_shape lib w iftname (h ++ [EvCreateProfile (swarm.swarmOptions int)]))
      as [[r Hr] _].
    destruct (docker.SwarmInit lib w iftname _) as [o ev1]. cbn in Hr. subst o.
    destruct r as [joinToken|e']; step; [|cbn; eauto].
    rewrite (createOverlayNetwork_parse_error lib w networkName subnet _ e0 Hcidr); step.
    match goal with
    | |- context [docker.SwarmLeave lib w ?hh] =>
        destruct (SwarmLeave_events lib w hh) as [_ [r Hr]];
        destruct (docker.SwarmLeave lib w hh) as [res evs]
    end.
    cbn in Hr. subst res. cbn. eauto.
  - intros c. unfold swarm.stackInit, swarm.interfaceByName, swarm.createProfile, Wrap.
    cbv beta iota delta [bind ret ask].
    destruct (GetString w (InterfaceFlagName int)) as [iftname|]; step; [|cbn; tauto].
    destruct (InterfaceByName w h iftname); step; [cbn; tauto|].
    rewrite Hsub; step.
    destruct (GetString w (StackOverlayNetworkNameFlagName int)) as [networkName|];
      step; [|cbn; tauto].
    destruct (CreateProfile w h (swarm.swarmOptions int)); step;
      [cbn; intros [H|[]]; discriminate H|].
    destruct (SwarmInit_shape lib w iftname (h ++ [EvCreateProfile (swarm.swarmOptions int)]))
      as [[r Hr] Hsw].
    destruct (docker.SwarmInit lib w iftname _) as [o ev1]. cbn in Hr, Hsw. subst o.
    destruct r as [joinToken|e']; step.
    + rewrite (createOverlayNetwork_parse_error lib w networkName subnet _ e0 Hcidr); step.
      match goal with
      | |- context [docker.SwarmLeave lib w ?hh] =>
          destruct (SwarmLeave_events lib w hh) as [Hev [r Hr]];
          destruct (docker.SwarmLeave lib w hh) as [res evs]
      end.
      cbn in Hr, Hev. subst res evs. cbn [snd app].
      intros [H|H]; [discriminate H|].
      apply in_app_or in H. destruct H as [H|H]; [auto|].
      cbn in H. destruct H as [H|[H|[]]]; [discriminate H|].
      inversion H. reflexivity.
    + cbn [snd app]. intros [H|H]; [discriminate H|].
      rewrite ?app_nil_r in H. auto.
Qed.

Lemma stackInit_invalid_subnet_witness :
  let w := Example.world (Example.initScenario "10.1.0.0/33" false) in
  GetString w (IPSubnetFlagName Example.int) = Ok "10.1.0.0/33"
  /\ ParseCIDR Example.lib "10.1.0.0/33"
     = Some (errorString "invalid CIDR address: 10.1.0.0/33")
  /\ exists e, fst (swarm.stackInit Example.lib Example.int w []) = Ret (Some e).
Proof.
  cbv zeta. split; [reflexivity|]. split; [reflexivity|].
  apply (stackInit_invalid_subnet Example.lib Example.int
           (Example.world (Example.initScenario "10.1.0.0/33" false)) []
           "10.1.0.0/33" (errorString "invalid CIDR address: 10.1.0.0/33"));
    reflexivity.
Defined.

(** ** Package docker: stderr of the child processes *)

Lemma Contains_here s : Contains s s.
Proof.
  exists EmptyString, EmptyString. cbn.
  induction s as [|c s IH]; cbn; congruence.
Qed.

Lemma append_assoc (a b c : string) : (a +++ b) +++ c = a +++ b +++ c.
Proof. induction a as [|x a IH]; cbn; congruence. Qed.

Lemma Contains_app_l s t sub : Contains s sub -> Contains (t +++ s) sub.
Proof.
  intros (pre & post & ->). exists (t +++ pre), post.
  now rewrite append_assoc.
Qed.

Lemma Contains_app_r s t sub : Contains s sub -> Contains (s +++ t) sub.
Proof.
  intros (pre & post & ->). exists pre, (post +++ t).
  now rewrite !append_assoc.
Qed.

Create HintDb contains.
#[local] Hint Resolve Contains_here Contains_app_l Contains_app_r : contains.

(** Where in a short list of events a given one can stand. *)
Ltac split_events H :=
  repeat match type of H with
         | [] = ?pre ++ _ :: _ => destruct pre; discriminate H
         | _ :: _ = ?pre ++ _ :: _ =>
             let ev := fresh "ev" in
             destruct pre as [|ev pre]; cbn [app] in H;
             [ inversion H; clear H; subst
             | injection H as ? H; subst ]
         end.

Ltac contains_quote :=
  cbn [Error]; unfold docker.stderrNote, docker.buffered; auto 12 with contains.

Ltac run_docker :=
  unfold docker.invoke, docker.errorOnly,
    docker.Pull, docker.ContainerID, docker.InspectNetwork, docker.ConnectToNetwork,
    docker.CreateNetwork, docker.InspectContainers, docker.Copy, docker.SwarmInit,
    docker.swarmJoinToken, docker.SwarmLeave, docker.SwarmStackDown,
    docker.Run, docker.Output, docker.start, docker.psCmd, docker.leaveCmd,
    bind, ret, emit, Wrap, WrapErr;
  cbn; norm_history.

#[local] Arguments String.append : simpl never.

Lemma buffered_calls_capture lib w call h :
  docker.buffersStderr call = true -> docker.stderrCaptured lib w call h.
Proof.
  intros Hb pre c post.
  destruct call; try discriminate Hb; clear Hb; run_docker;
    repeat match goal with
           | |- context [exitError ?p] => destruct (exitError p) eqn:?
           | |- context [UnmarshalNetworks ?l ?o] => destruct (UnmarshalNetworks l o)
           | |- context [UnmarshalContainers ?l ?o] => destruct (UnmarshalContainers l o)
           | |- context [negb ?b] => destruct (negb b)
           end;
    cbn; norm_history;
    intros H; split_events H;
    (split; [reflexivity|]);
    intros x Hx; cbn in Hx;
    repeat match goal with
           | E1 : ?X = _, E2 : ?X = _ |- _ =>
               rewrite E1 in E2; first [discriminate E2 | injection E2 as <- | clear E2]
           end;
    try discriminate Hx;
    try (injection Hx as <-);
    eexists; (split; [reflexivity|contains_quote]).
Qed.

Lemma streamed_calls_do_not_capture lib w call h :
  docker.buffersStderr call = false -> docker.stderrStreamed lib w call h.
Proof.
  intros Hb pre c post.
  destruct call; try discriminate Hb; clear Hb; run_docker;
    unfold docker.debugStreams; destruct (IsDebugMode w);
    repeat match goal with
           | |- context [exitError ?p] => destruct (exitError p) eqn:?
           end;
    cbn; norm_history;
    intros H; split_events H;
    (split; [reflexivity|]);
    intros x Hx; cbn in Hx;
    repeat match goal with
           | E1 : ?X = _, E2 : ?X = _ |- _ =>
               rewrite E1 in E2; first [discriminate E2 | injection E2 as <- | clear E2]
           end;
    try discriminate Hx;
    try (injection Hx as <-);
    auto.
Qed.

Lemma substring_here (sub post : string) :
  substring 0 (String.length sub) (sub +++ post) = sub.
Proof.
  induction sub as [|c sub IH].
  - destruct post; reflexivity.
  - unfold String.append; fold String.append. cbn. now rewrite IH.
Qed.

Lemma substring_at (pre sub post : string) :
  substring (String.length pre) (String.length sub) (pre +++ sub +++ post) = sub.
Proof.
  induction pre as [|c pre IH].
  - exact (substring_here sub post).
  - unfold String.append; fold String.append. cbn. exact IH.
Qed.

(** [Contains] decided by the library's [index]. *)
Lemma Contains_index s sub :
  sub <> EmptyString -> Contains s sub -> index 0 sub s <> None.
Proof.
  intros Hne (pre & post & ->) Hnone.
  apply (index_correct3 0 (String.length pre) _ _ Hnone Hne).
  - lia.
  - apply substring_at.
Qed.

(** The claim fails at [Pull]: outside debug mode the stderr of
    [docker pull] goes nowhere, and when the process fails with [boom] on
    stderr the error returned is the bare exit error wrapped, without that
    text. *)
Lemma Pull_does_not_capture_stderr :
  let w := Example.world (Example.failingScenario false) in
  ~ docker.stderrCaptured Example.lib w (docker.CallPull "alpine") []
  /\ stderrData (process w [EvDebugf "run command: %s" (Command "docker" ["pull"; "alpine"])]
                   (Command "docker" ["pull"; "alpine"])) = "boom"
  /\ exists e,
       fst (docker.Pull w "alpine" []) = Ret (Some e)
       /\ Error e = "running docker command failed: exit status 1"
       /\ ~ Contains (Error e) "boom".
Proof.
  cbv zeta. split; [|split; [reflexivity|]].
  - intros H.
    destruct (H [EvDebugf "run command: %s" (Command "docker" ["pull"; "alpine"])]
                (Command "docker" ["pull"; "alpine"]) [] eq_refl) as [Hbuf _].
    discriminate Hbuf.
  - eexists. split; [reflexivity|]. split; [reflexivity|].
    intros Hc. apply Contains_index in Hc; [|discriminate].
    apply Hc. vm_compute. reflexivity.
Qed.

(** C4, amended: every function of the package but [Pull] and
    [SwarmStackDown] runs its processes with a buffer on stderr, and when a
    process fails, the message of the error returned holds the text of that
    buffer, as %q prints it.  [Pull] and [SwarmStackDown] attach no buffer:
    the stderr of their process is the console in debug mode and is dropped
    otherwise, and the error returned is the error of the process, bare
    ([SwarmStackDown]) or under a fixed message ([Pull]). *)
Theorem docker_stderr_capture lib w call h :
  (docker.buffersStderr call = true -> docker.stderrCaptured lib w call h)
  /\ (docker.buffersStderr call = false -> docker.stderrStreamed lib w call h).
Proof.
  split.
  - apply buffered_calls_capture.
  - apply streamed_calls_do_not_capture.
Qed.

Lemma docker_stderr_capture_witness :
  let w := Example.world (Example.failingScenario false) in
  docker.buffersStderr docker.CallSwarmLeave = true
  /\ exists e,
       fst (docker.invoke Example.lib w docker.CallSwarmLeave []) = Ret (Some e)
       /\ Contains (Error e) (dquote +++ "boom" +++ dquote).
Proof.
  cbv zeta. split; [reflexivity|].
  destruct (docker_stderr_capture Example.lib
              (Example.world (Example.failingScenario false))
              docker.CallSwarmLeave []) as [H _].
  destruct (H eq_refl [EvDebugf "run command: %s" docker.leaveCmd] docker.leaveCmd []
              eq_refl) as [_ Hmsg].
  exact (Hmsg Example.exitStatus1 eq_refl).
Defined.

(** ** Package cmd: manifest query *)

Section QueryProperties.
Variable lib : GoLib.
Variable int : Internal.
Context {Config : Type} {ucfg : UcfgConfig Config}.
Variable NewConfigWithFile : trace -> string -> result Config.

(** The loop over the flattened keys, in closed form. *)
Lemma firstKey_spec key v rest (cfg : Config) keys :
  query.firstKey key (v :: rest) cfg keys
  = Ret (if in_dec string_dec key keys
         then match CfgString cfg key 0 with
              | Ok v' => String.eqb v' v
              | Err _ => false
              end
         else false).
Proof.
  induction keys as [|f keys IH]; cbn [query.firstKey].
  - reflexivity.
  - destruct (String.eqb_spec key f) as [->|Hne].
    + destruct (in_dec string_dec f (f :: keys)) as [_|Hn]; [|exfalso; apply Hn; now left].
      destruct (CfgString cfg f 0) as [v'|]; [|reflexivity].
      destruct (String.eqb v' v); reflexivity.
    + rewrite IH.
      destruct (in_dec string_dec key keys) as [Hin|Hn];
        destruct (in_dec string_dec key (f :: keys)) as [Hin'|Hn']; try reflexivity.
      * exfalso. apply Hn'. now right.
      * exfalso. destruct Hin' as [E|Hin']; [congruence|contradiction].
Qed.

Lemma queryPackageManifest_true key v rest (cfg : Config) :
  query.queryPackageManifest key (v :: rest) cfg = Ret true
  <-> In key (FlattenedKeys cfg) /\ CfgString cfg key 0 = Ok v.
Proof.
  unfold query.queryPackageManifest. rewrite firstKey_spec.
  destruct (in_dec string_dec key (FlattenedKeys cfg)) as [Hin|Hn].
  - destruct (CfgString cfg key 0) as [v'|e].
    + destruct (String.eqb_spec v' v) as [->|Hne].
      * tauto.
      * split; [discriminate|]. intros [_ E]. congruence.
    + split; [discriminate|]. intros [_ E]. discriminate E.
  - split; [discriminate|]. tauto.
Qed.

Lemma queryPackageManifest_total key v rest (cfg : Config) :
  exists b, query.queryPackageManifest key (v :: rest) cfg = Ret b.
Proof.
  unfold query.queryPackageManifest. rewrite firstKey_spec. eauto.
Qed.

(** The loop over the packages, in closed form, when the match of no
    loaded manifest panics. *)
Lemma scanPackages_run key values ppath h pkgs :
  (forall pkg cfg, In pkg pkgs -> IsDir pkg = true ->
     query.manifestOf lib int NewConfigWithFile h ppath pkg = Ok cfg ->
     exists b, query.queryPackageManifest key values cfg = Ret b) ->
  forall skipped found,
    query.scanPackages lib int NewConfigWithFile key values ppath pkgs skipped found h
    = (Ret (skipped ++ query.skippedOf lib int NewConfigWithFile h ppath pkgs,
            found ++ query.matched lib int NewConfigWithFile key values h ppath pkgs),
       []).
Proof.
  unfold query.skippedOf, query.matched.
  induction pkgs as [|pkg pkgs IH]; intros Hb skipped found.
  - cbn. now rewrite !app_nil_r.
  - assert (Hb' : forall pkg cfg, In pkg pkgs -> IsDir pkg = true ->
              query.manifestOf lib int NewConfigWithFile h ppath pkg = Ok cfg ->
              exists b, query.queryPackageManifest key values cfg = Ret b)
      by (intros p c Hin; apply Hb; now right).
    specialize (IH Hb').
    cbn [query.scanPackages flat_map filter map].
    unfold query.skippedEntry at 1, query.matches at 1.
    destruct (IsDir pkg) eqn:Hdir; cbn [andb].
    + unfold bind, ask, query.lift. step.
      pose proof (Hb pkg) as Hpkg. unfold query.manifestOf in *.
      destruct (NewConfigWithFile h _) as [cfg|e].
      * destruct (Hpkg cfg (or_introl eq_refl) Hdir eq_refl) as [b Hq].
        rewrite Hq. step. destruct b; rewrite IH; cbn [map app].
        -- now rewrite <- app_assoc.
        -- reflexivity.
      * rewrite IH. now rewrite <- app_assoc.
    + rewrite IH. reflexivity.
Qed.

Lemma printAll_run l h :
  query.printAll l h
  = (Ret tt, map (fun v => EvPrint ((" " +++ " " +++ v) +++ newline)) l).
Proof.
  revert h. induction l as [|v l IH]; intros h; cbn [query.printAll map].
  - reflexivity.
  - unfold bind, query.Println2, query.Println, emit. rewrite IH. reflexivity.
Qed.

End QueryProperties.

(** C3: with a non-empty value list, [queryPackageManifest] returns, and
    returns true exactly when the queried key is among the flattened keys
    and the string configured at it equals the first value; the values
    after the first make no difference.  Packages [a] ([foo.bar: x]) and
    [b] ([foo.bar: y]) queried with [foo.bar] and [x]: the matched list is
    [a], the skipped list is empty, and [Packages:] and [a] are printed. *)
Theorem queryPackageManifest_first_value_only :
  (forall Config (ucfg : UcfgConfig Config) key v rest (cfg : Config),
     (exists b, query.queryPackageManifest key (v :: rest) cfg = Ret b)
     /\ (query.queryPackageManifest key (v :: rest) cfg = Ret true
         <-> In key (FlattenedKeys cfg) /\ CfgString cfg key 0 = Ok v)
     /\ (forall rest',
           query.queryPackageManifest key (v :: rest') cfg
           = query.queryPackageManifest key (v :: rest) cfg))
  /\ (let pkgs := [Example.dir "a"; Example.dir "b"] in
      let w := Example.world (Example.queryScenario pkgs) in
      let load := Example.loader Example.twoPackages in
      query.scanPackages Example.lib Example.int load "foo.bar" ["x"] "packages" pkgs [] [] []
      = (Ret ([], ["a"]), [])
      /\ query.queryManifest Example.lib Example.int w load []
         = (Ret None, [EvPrint ("Packages:" +++ newline);
                       EvPrint ("  a" +++ newline)])).
Proof.
  split.
  - intros Config ucfg key v rest cfg. split; [|split].
    + apply queryPackageManifest_total.
    + apply queryPackageManifest_true.
    + intros rest'. unfold query.queryPackageManifest. now rewrite !firstKey_spec.
  - cbv zeta. split; vm_compute; reflexivity.
Qed.

(** In a run of [queryManifest] that gets to the packages, if every
    package directory either fails to load or is found not to match (the
    comparison returns false), the command says that nothing was found,
    last, and returns nil. *)
Lemma queryManifest_no_match_is_not_an_error
  lib int w Config (ucfg : UcfgConfig Config)
  (load : trace -> string -> result Config) h values pkgs :
  let key := match GetString w (ManifestKeyFlagName int) with
             | Ok k => k
             | Err _ => EmptyString
             end in
  let ppath := Join lib ["."; query.packagesDir] in
  query.queryCheck lib w h = (Ret None, []) ->
  GetStringSlice w (ManifestValueFlagName int) = Ok values ->
  ReadDir w h ppath = Ok pkgs ->
  (forall pkg, In pkg pkgs -> IsDir pkg = true ->
     match query.manifestOf lib int load h ppath pkg with
     | Err _ => True
     | Ok cfg =>
         query.queryPackageManifest key (TrimStringSlice int values) cfg = Ret false
     end) ->
  fst (query.queryManifest lib int w load h) = Ret None
  /\ exists evs,
       snd (query.queryManifest lib int w load h)
       = evs ++ [EvPrint ("key with value not found in any packages" +++ newline)].
Proof.
  intros key ppath Hcheck Hvalues Hdir Hnone.
  assert (Hfound : query.matched lib int load key (TrimStringSlice int values) h ppath pkgs
                   = []).
  { unfold query.matched.
    replace (filter _ pkgs) with (@nil FileInfo); [reflexivity|].
    symmetry. clear Hdir. induction pkgs as [|pkg pkgs IH]; [reflexivity|].
    cbn [filter]. rewrite IH by (intros p Hin; apply Hnone; now right).
    unfold query.matches. specialize (Hnone pkg (or_introl eq_refl)).
    destruct (IsDir pkg); [|reflexivity]. specialize (Hnone eq_refl).
    destruct (query.manifestOf lib int load h ppath pkg); [|reflexivity].
    rewrite Hnone. reflexivity. }
  set (skipped := query.skippedOf lib int load h ppath pkgs).
  assert (Hrun : query.queryManifest lib int w load h
                 = (Ret None,
                    (if (0 <? length skipped)%nat
                     then EvPrint ("Skipped packages:" +++ newline)
                            :: map (fun v => EvPrint ((" " +++ " " +++ v) +++ newline)) skipped
                     else [])
                      ++ [EvPrint ("key with value not found in any packages" +++ newline)])).
  { unfold query.queryManifest.
    cbv beta iota zeta delta [bind ret ask asIs].
    rewrite Hcheck. step. rewrite Hvalues. step.
    fold ppath. rewrite Hdir. step. fold key.
    rewrite scanPackages_run.
    - rewrite Hfound. step. cbn [length Nat.eqb]. fold skipped.
      destruct (0 <? length skipped)%nat.
      + unfold query.Println at 1. unfold emit at 1. step. rewrite printAll_run.
        unfold query.Println, emit. step. reflexivity.
      + unfold query.Println, emit. step. reflexivity.
    - intros pkg cfg Hin Hd Hload. specialize (Hnone pkg Hin Hd).
      rewrite Hload in Hnone. eauto. }
  rewrite Hrun. cbn [fst snd]. split; [reflexivity|]. eexists. reflexivity.
Qed.

(** ** Package stack: deploy *)

(** [stackDeploy] written out. *)
Lemma stackDeploy_run int w options h :
  stack.stackDeploy int w options h
  = match Configuration w h with
    | Err e => (Ret (Some (withMessage e "can't read application configuration")), [])
    | Ok appConfig =>
        let composeFile := FetchPath (OptProfile options) (SnapshotFile int) in
        let cmd :=
          docker.debugStreams w
            (setEnv (Environ w h ++ stack.mergedEnv int options appConfig)
               (Command "docker"
                  ["stack"; "deploy"; "--compose-file"; composeFile; StackName options])) in
        (Ret (exitError (process w (h ++ [EvDebugf "running command: %s" cmd]) cmd)),
         [EvDebugf "running command: %s" cmd; EvStart cmd])
    end.
Proof.
  unfold stack.stackDeploy, docker.Run, docker.start.
  cbv beta iota zeta delta [bind ret ask emit Wrap].
  destruct (Configuration w h); step; reflexivity.
Qed.

Lemma debugStreams_Env w c : Env (docker.debugStreams w c) = Env c.
Proof. unfold docker.debugStreams. destruct (IsDebugMode w); reflexivity. Qed.

(** C7: every process that [stackDeploy] runs gets as environment the
    environment of the calling process followed by the merged variables,
    and the merged variables are the image references of the version, then
    the variant of the version, then the compose variables of the profile,
    nothing else; the process is run whenever the application configuration
    can be read.  With [A=1], [B=2] and [C=3] for the three sources the
    merged list is [A=1; B=2; C=3]. *)
Theorem stackDeploy_environment int w options h :
  (forall c,
     In (EvStart c) (snd (stack.stackDeploy int w options h)) ->
     exists appConfig,
       Configuration w h = Ok appConfig
       /\ Env c = Some (Environ w h ++ stack.mergedEnv int options appConfig))
  /\ (forall appConfig,
        Configuration w h = Ok appConfig ->
        exists c, In (EvStart c) (snd (stack.stackDeploy int w options h)))
  /\ (forall appConfig,
        stack.mergedEnv int options appConfig
        = StackImageRefsAsEnv appConfig (StackVersion options)
            ++ [stackVariantAsEnv int (StackVersion options)]
            ++ ComposeEnvVars (OptProfile options))
  /\ stack.mergedEnv Example.int Example.options
       (mkApplicationConfiguration (fun _ => ["A=1"]))
     = ["A=1"; "B=2"; "C=3"].
Proof.
  rewrite stackDeploy_run.
  split; [|split; [|split]].
  - intros c. destruct (Configuration w h) as [appConfig|e].
    + cbn [snd In]. intros [H|[H|[]]]; [discriminate H|].
      injection H as <-. exists appConfig. split; [reflexivity|].
      now rewrite debugStreams_Env.
    + intros [].
  - intros appConfig ->. cbn [snd]. eexists. right. left. reflexivity.
  - intros appConfig. unfold stack.mergedEnv, stack.build, stack.withEnvs, stack.withEnv,
      stack.newEnvBuilder.
    cbn [app]. now rewrite <- app_assoc.
  - reflexivity.
Qed.

Lemma stackDeploy_environment_witness :
  let w := Example.world (Example.deployScenario false) in
  exists c,
    In (EvStart c) (snd (stack.stackDeploy Example.int w Example.options []))
    /\ Env c = Some ["PATH=/usr/bin"; "A=1"; "B=2"; "C=3"].
Proof.
  cbv zeta.
  destruct (stackDeploy_environment Example.int
              (Example.world (Example.deployScenario false)) Example.options [])
    as (Henv & Hrun & _ & _).
  destruct (Hrun _ eq_refl) as [c Hc].
  exists c. split; [exact Hc|].
  destruct (Henv c Hc) as (appConfig & Hcfg & ->).
  injection Hcfg as <-. reflexivity.
Defined.

(** Follow a run of [Deploy] through every answer of the world. *)
Ltac run_deploy :=
  unfold stack.Deploy, stack.clearDir, stack.copyAll, stack.composeBuild, stack.Print;
  cbv beta iota zeta delta [bind ret ask emit Wrap];
  repeat match goal with
         | |- context [stack.stackDeploy ?i ?w ?o ?hh] =>
             rewrite (stackDeploy_run i w o hh)
         | |- context [match ?x with _ => _ end] =>
             match type of x with
             | result _ => idtac
             | option _ => idtac
             | bool => idtac
             end;
             destruct x eqn:?
         | _ => progress (cbv zeta; step)
         end.

(** Two equations on the same answer of the world agree. *)
Ltac merge_answers :=
  repeat match goal with
         | E1 : ?X = _, E2 : ?X = _ |- _ =>
             rewrite E1 in E2;
             first [discriminate E2 | injection E2 as <- | injection E2 as -> | clear E2]
         | H : Ok _ = Err _ |- _ => discriminate H
         | H : Err _ = Ok _ |- _ => discriminate H
         | H : Some _ = None |- _ => discriminate H
         | H : None = Some _ |- _ => discriminate H
         | H : true = false |- _ => discriminate H
         | H : false = true |- _ => discriminate H
         | H : Ok _ = Ok _ |- _ => injection H as H; subst
         | H : Err _ = Err _ |- _ => injection H as H; subst
         | H : Some _ = Some _ |- _ => injection H as H; subst
         end.

Lemma Deploy_returns int w options h :
  exists r, fst (stack.Deploy int w options h) = Ret r.
Proof.
  run_deploy; cbn [fst]; eauto.
Qed.

(** C8: the stages of [Deploy].  A failure to find the build packages
    directory or to locate the stack packages directory is returned under
    its message before anything is done.  Otherwise the first thing done is
    to clear the destination, whether a custom directory was found or not,
    and the custom directory is copied into the destination exactly when it
    was found (and the clearing went through).  Whenever a step (clearing,
    copying, building the images, the deploy process) fails, it is the last
    thing the run does, so nothing done before is undone, and the error
    returned is the error of the step under the message of its stage.
    Every error of [Deploy] carries one of the stage messages. *)
Theorem Deploy_stages int w options h :
  (forall e,
     FindBuildPackagesDirectory w h = Err e ->
     stack.Deploy int w options h
     = (Ret (Some (withMessage e "finding build packages directory failed")), []))
  /\ (forall dir e,
        FindBuildPackagesDirectory w h = Ok dir ->
        NewLocationManager w h = Err e ->
        stack.Deploy int w options h
        = (Ret (Some (withMessage e "locating stack packages directory failed")), []))
  /\ (forall buildPackagesPath found stackPackagesDir,
        FindBuildPackagesDirectory w h = Ok (buildPackagesPath, found) ->
        NewLocationManager w h = Ok stackPackagesDir ->
        let dst := PackagesDir stackPackagesDir in
        (exists rest, snd (stack.Deploy int w options h) = EvClearDir dst :: rest)
        /\ forall src d,
             In (EvCopyAll src d) (snd (stack.Deploy int w options h))
             <-> found = true /\ ClearDir w h dst = None
                 /\ src = buildPackagesPath /\ d = dst)
  /\ (forall pre ev post e,
        snd (stack.Deploy int w options h) = pre ++ ev :: post ->
        stack.answer w (h ++ pre) ev = Some e ->
        post = []
        /\ exists msg,
             stack.stage ev = Some msg
             /\ fst (stack.Deploy int w options h) = Ret (Some (withMessage e msg)))
  /\ (forall err,
        fst (stack.Deploy int w options h) = Ret (Some err) ->
        exists e msg, err = withMessage e msg /\ In msg stack.stageMessages).
Proof.
  split; [|split; [|split; [|split]]].
  - intros e H. unfold stack.Deploy. cbv beta iota delta [bind ret ask Wrap].
    rewrite H. reflexivity.
  - intros dir e Hf Hl. unfold stack.Deploy. cbv beta iota delta [bind ret ask Wrap].
    rewrite Hf. step. rewrite Hl. reflexivity.
  - intros path found lm Hf Hl dst. subst dst. split.
    + run_deploy; merge_answers; cbn [snd fst]; eauto.
    + intros src d. run_deploy; merge_answers; cbn [snd fst In] in *;
        (split;
         [ intros Hin;
           repeat match goal with
                  | H : _ \/ _ |- _ => destruct H
                  | H : False |- _ => destruct H
                  | H : _ = EvCopyAll _ _ |- _ =>
                      first [discriminate H | injection H as <- <-]
                  end; auto
         | intros (Hfound & Hclear & -> & ->);
           try congruence; auto 10 ]).
  - intros pre ev post e. run_deploy; cbn [snd fst];
      intros H; split_events H;
      intros Hx; cbn [stack.answer app] in Hx; norm_history;
      try discriminate Hx;
      merge_answers;
      (split; [reflexivity|]); eexists; (split; reflexivity).
  - intros err. run_deploy; cbn [fst]; intros H;
      first [discriminate H | injection H as <-];
      do 2 eexists; (split; [reflexivity|]); cbn; tauto.
Qed.

Lemma Deploy_stages_witness :
  let w := Example.world (Example.deployScenario true) in
  (exists rest,
     snd (stack.Deploy Example.int w Example.options [])
     = EvClearDir "/stack/packages" :: rest)
  /\ In (EvCopyAll "/build/packages" "/stack/packages")
        (snd (stack.Deploy Example.int w Example.options [])).
Proof.
  cbv zeta.
  destruct (Deploy_stages Example.int (Example.world (Example.deployScenario true))
              Example.options []) as (_ & _ & H & _ & _).
  destruct (H "/build/packages" true (mkLocationManager "/stack/packages")
              eq_refl eq_refl) as [Hclear Hcopy].
  split; [exact Hclear|].
  apply Hcopy. repeat split; reflexivity.
Defined.

Lemma ContainerID_error_only_on_many_lines_witness :
  let w := Example.world (Example.psScenario EmptyString) in
  exitError (docker.psAnswer w "elastic-agent" []) = None
  /\ stdoutData (docker.psAnswer w "elastic-agent" []) = EmptyString
  /\ fst (docker.ContainerID Example.lib w "elastic-agent" []) = Ret (Ok EmptyString).
Proof.
  cbv zeta. split; [reflexivity|]. split; [reflexivity|].
  destruct (ContainerID_error_only_on_many_lines Example.lib
              (Example.world (Example.psScenario EmptyString)) "elastic-agent" [] eq_refl)
    as [_ Hempty].
  destruct (Hempty eq_refl) as [_ Hres]. exact Hres.
Defined.

(** One identifier on one line is returned as it is, two are refused. *)
Example ContainerID_one_line :
  fst (docker.ContainerID Example.lib
         (Example.world (Example.psScenario ("0f3c" +++ newline))) "elastic-agent" [])
  = Ret (Ok "0f3c").
Proof. reflexivity. Qed.

Example ContainerID_two_lines :
  fst (docker.ContainerID Example.lib
         (Example.world (Example.psScenario ("0f3c" +++ newline +++ "77aa" +++ newline)))
         "elastic-agent" [])
  = Ret (Err (errorString "expected single elastic-agent container")).
Proof. reflexivity. Qed.

(** * Further properties *)

(** ** Package docker *)

(** X1: no function of the package hides a failed process.  Each call
    returns (it does not panic); every process it runs is a [docker] one;
    and if it returns nil, every process it ran exited with status 0. *)
Theorem docker_calls_report_failed_processes lib w call h :
  (exists r, fst (docker.invoke lib w call h) = Ret r)
  /\ forall pre c post,
       snd (docker.invoke lib w call h) = pre ++ EvStart c :: post ->
       hd EmptyString (Args c) = "docker"
       /\ (fst (docker.invoke lib w call h) = Ret None ->
           exitError (process w (h ++ pre) c) = None).
Proof.
  split.
  - destruct call; run_docker; unfold docker.debugStreams;
      try destruct (IsDebugMode w);
      repeat match goal with
             | |- context [exitError ?p] => destruct (exitError p) eqn:?
             | |- context [UnmarshalNetworks ?l ?o] => destruct (UnmarshalNetworks l o)
             | |- context [UnmarshalContainers ?l ?o] => destruct (UnmarshalContainers l o)
             | |- context [negb ?b] => destruct (negb b)
             end;
      cbn; eauto.
  - intros pre c post.
    destruct call; run_docker; unfold docker.debugStreams;
      try destruct (IsDebugMode w);
      repeat match goal with
             | |- context [exitError ?p] => destruct (exitError p) eqn:?
             | |- context [UnmarshalNetworks ?l ?o] => destruct (UnmarshalNetworks l o)
             | |- context [UnmarshalContainers ?l ?o] => destruct (UnmarshalContainers l o)
             | |- context [negb ?b] => destruct (negb b)
             end;
      cbn; norm_history;
      intros H; split_events H;
      (split; [reflexivity|]);
      intros Hnil; try discriminate Hnil; cbn;
      repeat match goal with
             | E1 : ?X = _, E2 : ?X = _ |- _ =>
                 rewrite E1 in E2; first [discriminate E2 | injection E2 as <- | clear E2]
             end;
      first [assumption | reflexivity].
Qed.

(** X2: [CreateNetwork] runs one process, [docker network create --driver
    driver], then the extra arguments in their order, then the name, which
    is always the last word (the test on the number of extra arguments
    changes nothing); it returns nil exactly when that process exits 0. *)
Theorem CreateNetwork_command lib w name driver arg h :
  let cmd := Cmds.networkCreate name driver arg in
  snd (docker.CreateNetwork lib w name driver arg h)
  = [EvDebugf "run command: %s" cmd; EvStart cmd]
  /\ last (Args cmd) EmptyString = name
  /\ (fst (docker.CreateNetwork lib w name driver arg h) = Ret None
      <-> exitError (process w (h ++ [EvDebugf "run command: %s" cmd]) cmd) = None).
Proof.
  cbv zeta.
  assert (Hcmd : (if (0 <? length arg)%nat
                  then ["network"; "create"; "--driver"; driver] ++ arg
                  else ["network"; "create"; "--driver"; driver])
                 = ["network"; "create"; "--driver"; driver] ++ arg).
  { destruct arg; [now rewrite app_nil_r | reflexivity]. }
  unfold docker.CreateNetwork, docker.Run, docker.start, bind, ret, emit, Wrap.
  rewrite Hcmd. unfold Cmds.networkCreate. rewrite <- app_assoc.
  cbn [fst snd app].
  destruct (exitError _); cbn [fst snd app];
    (split; [reflexivity|]);
    (split; [cbn [Args setStderr Command]; rewrite !app_comm_cons; apply last_last|]);
    split; congruence.
Qed.

(** What [SwarmInit] does, by the exit of its two processes. *)
Lemma SwarmInit_run lib w ift h :
  let p1 := process w (h ++ [EvDebugf "run command: %s" (Cmds.swarmInit ift)])
              (Cmds.swarmInit ift) in
  let h2 := h ++ [EvDebugf "run command: %s" (Cmds.swarmInit ift);
                  EvStart (Cmds.swarmInit ift);
                  EvDebugf "run command: %s" Cmds.joinToken] in
  let p2 := process w h2 (setStdout Buffer Cmds.joinToken) in
  docker.SwarmInit lib w ift h
  = match exitError p1 with
    | Some x =>
        (Ret (Err (withMessage x
                     ("docker swarm init failed " +++ docker.stderrNote lib (stderrData p1)))),
         [EvDebugf "run command: %s" (Cmds.swarmInit ift); EvStart (Cmds.swarmInit ift)])
    | None =>
        match exitError p2 with
        | Some x =>
            let e := withMessage x
                       ("unable to get join token "
                          +++ docker.stderrNote lib (stderrData p2)) in
            (Ret (Err e),
             [EvDebugf "run command: %s" (Cmds.swarmInit ift);
              EvStart (Cmds.swarmInit ift);
              EvDebugf "run command: %s" Cmds.joinToken;
              EvStart (setStdout Buffer Cmds.joinToken);
              EvLogError e])
        | None =>
            (Ret (Ok (stdoutData p2)),
             [EvDebugf "run command: %s" (Cmds.swarmInit ift);
              EvStart (Cmds.swarmInit ift);
              EvDebugf "run command: %s" Cmds.joinToken;
              EvStart (setStdout Buffer Cmds.joinToken)])
        end
    end.
Proof.
  cbv zeta.
  unfold docker.SwarmInit, docker.swarmJoinToken, docker.Run, docker.Output, docker.start,
    bind, ret, emit, WrapErr, Cmds.swarmInit, Cmds.joinToken.
  cbn. norm_history.
  destruct (exitError _); [reflexivity|].
  cbn. norm_history.
  destruct (exitError _); reflexivity.
Qed.

(** X3: [SwarmInit] asks for the join token only after [docker swarm
    init] has exited 0; it returns a token exactly when both processes exit
    0, and the token is then the whole output of [docker swarm join-token
    worker], untrimmed; it never runs [docker swarm leave], also not when
    the token cannot be had after a successful init. *)
Theorem SwarmInit_sequence lib w ift h :
  let p1 := process w (h ++ [EvDebugf "run command: %s" (Cmds.swarmInit ift)])
              (Cmds.swarmInit ift) in
  let p2 := process w (h ++ [EvDebugf "run command: %s" (Cmds.swarmInit ift);
                             EvStart (Cmds.swarmInit ift);
                             EvDebugf "run command: %s" Cmds.joinToken])
              (setStdout Buffer Cmds.joinToken) in
  (In (EvStart (setStdout Buffer Cmds.joinToken)) (snd (docker.SwarmInit lib w ift h))
   <-> exitError p1 = None)
  /\ (forall token,
        fst (docker.SwarmInit lib w ift h) = Ret (Ok token)
        <-> exitError p1 = None /\ exitError p2 = None /\ token = stdoutData p2)
  /\ ~ In (EvStart docker.leaveCmd) (snd (docker.SwarmInit lib w ift h)).
Proof.
  cbv zeta. rewrite SwarmInit_run. cbv zeta.
  destruct (exitError (process w (h ++ [EvDebugf _ (Cmds.swarmInit ift)]) _)) as [x|].
  - cbn [fst snd In]. split; [|split].
    + split; [|discriminate]. intros [H|[H|[]]]; discriminate H.
    + intros token. split; [discriminate|]. intros [H _]. discriminate H.
    + intros [H|[H|[]]]; discriminate H.
  - destruct (exitError _) as [x|]; cbn [fst snd In]; (split; [|split]).
    + split; auto 6.
    + intros token. split; [discriminate|]. intros (_ & H & _). discriminate H.
    + intros [H|[H|[H|[H|[H|[]]]]]]; discriminate H.
    + split; auto 6.
    + intros token. split.
      * intros H. injection H as <-. auto.
      * intros (_ & _ & ->). reflexivity.
    + intros [H|[H|[H|[H|[]]]]]; discriminate H.
Qed.

Lemma Split_single (s : string) (sep : ascii) :
  length (Split s sep) = 1 -> Split s sep = [s] /\ Count s sep = 0.
Proof.
  intros H. split.
  - revert H. induction s as [|c s IH]; cbn [Split]; [reflexivity|].
    destruct (Ascii.eqb c sep).
    + cbn [length]. rewrite Split_length. discriminate.
    + destruct (Split s sep) as [|piece rest] eqn:E.
      * pose proof (Split_length s sep) as L. rewrite E in L. discriminate.
      * cbn [length]. intros H. destruct rest; [|discriminate].
        specialize (IH eq_refl). congruence.
  - rewrite Split_length in H. congruence.
Qed.

(** X4: when [ContainerID] returns an identifier, the listing process
    has exited 0, and the identifier is its whole output after
    [bytes.TrimSpace], with no line feed in it. *)
Theorem ContainerID_returns_trimmed_output lib w name h id :
  fst (docker.ContainerID lib w name h) = Ret (Ok id) ->
  exitError (docker.psAnswer w name h) = None
  /\ id = docker.TrimSpace lib (stdoutData (docker.psAnswer w name h))
  /\ Count id LF = 0.
Proof.
  rewrite ContainerID_run. cbn [fst]. cbv zeta.
  destruct (exitError _); [discriminate|].
  destruct (Nat.eqb_spec (length (Split (docker.TrimSpace lib
              (stdoutData (docker.psAnswer w name h))) LF)) 1) as [E|E];
    cbn [negb]; [|discriminate].
  intros H. injection H as <-.
  destruct (Split_single _ _ E) as [-> Hc]. cbn [nth]. auto.
Qed.

Lemma ContainerID_returns_trimmed_output_witness :
  let w := Example.world (Example.psScenario ("0f3c" +++ newline)) in
  fst (docker.ContainerID Example.lib w "elastic-agent" []) = Ret (Ok "0f3c")
  /\ "0f3c" = docker.TrimSpace Example.lib
                (stdoutData (docker.psAnswer w "elastic-agent" [])).
Proof.
  cbv zeta. split; [reflexivity|].
  apply (ContainerID_returns_trimmed_output Example.lib
           (Example.world (Example.psScenario ("0f3c" +++ newline)))
           "elastic-agent" [] "0f3c" eq_refl).
Defined.

(** X5: [InspectContainers] runs [docker inspect] with the identifiers as
    given (also with none) and returns descriptions exactly when the
    process exits 0 and its output decodes: they are the decoded output.
    [InspectNetwork] does the same with [docker network inspect]. *)
Theorem Inspect_decodes_stdout lib w h :
  (forall containerIDs ds,
     let cmd := Cmds.inspect containerIDs in
     let p := process w (h ++ [EvDebugf "output command: %s" cmd]) (setStdout Buffer cmd) in
     snd (docker.InspectContainers lib w containerIDs h)
     = [EvDebugf "output command: %s" cmd; EvStart (setStdout Buffer cmd)]
     /\ (fst (docker.InspectContainers lib w containerIDs h) = Ret (Ok ds)
         <-> exitError p = None /\ UnmarshalContainers lib (stdoutData p) = Ok ds))
  /\ (forall network ds,
        let cmd := Cmds.networkInspect network in
        let p := process w (h ++ [EvDebugf "output command: %s" cmd]) (setStdout Buffer cmd) in
        snd (docker.InspectNetwork lib w network h)
        = [EvDebugf "output command: %s" cmd; EvStart (setStdout Buffer cmd)]
        /\ (fst (docker.InspectNetwork lib w network h) = Ret (Ok ds)
            <-> exitError p = None /\ UnmarshalNetworks lib (stdoutData p) = Ok ds)).
Proof.
  split; intros x ds; cbv zeta;
    unfold docker.InspectContainers, docker.InspectNetwork, docker.Output, docker.start,
      bind, ret, emit, WrapErr, Cmds.inspect, Cmds.networkInspect;
    cbn; norm_history;
    destruct (exitError _); cbn;
    try destruct (UnmarshalContainers lib _); try destruct (UnmarshalNetworks lib _);
    cbn; (split; [reflexivity|]);
    split; try discriminate; try (intros [H1 H2]; congruence);
    intros H; injection H as <-; auto.
Qed.

(** ** [bytes.TrimSpace] on ASCII text *)

Lemma revOnto_append s acc : revOnto s acc = reverse s +++ acc.
Proof.
  unfold reverse. revert acc. induction s as [|c s IH]; intros acc; cbn [revOnto].
  - reflexivity.
  - rewrite IH. rewrite (IH (String c EmptyString)). now rewrite append_assoc.
Qed.

Lemma append_empty_r s : s +++ EmptyString = s.
Proof. induction s as [|c s IH]; [reflexivity|]. unfold String.append; fold String.append. congruence. Qed.

Lemma reverse_cons c s : reverse (String c s) = reverse s +++ String c EmptyString.
Proof. unfold reverse at 1. cbn [revOnto]. apply revOnto_append. Qed.

Lemma reverse_append a b : reverse (a +++ b) = reverse b +++ reverse a.
Proof.
  induction a as [|c a IH].
  - change (EmptyString +++ b) with b. change (reverse EmptyString) with EmptyString.
    now rewrite append_empty_r.
  - change (String c a +++ b) with (String c (a +++ b)).
    rewrite !reverse_cons, IH. now rewrite append_assoc.
Qed.

Lemma reverse_involutive s : reverse (reverse s) = s.
Proof.
  induction s as [|c s IH]; [reflexivity|].
  rewrite reverse_cons, reverse_append, IH. reflexivity.
Qed.

Lemma all_append p a b : Cmds.all p (a +++ b) = Cmds.all p a && Cmds.all p b.
Proof.
  induction a as [|c a IH]; [reflexivity|].
  change (String c a +++ b) with (String c (a +++ b)).
  cbn [Cmds.all]. rewrite IH. now rewrite andb_assoc.
Qed.

Lemma all_reverse p s : Cmds.all p (reverse s) = Cmds.all p s.
Proof.
  induction s as [|c s IH]; [reflexivity|].
  rewrite reverse_cons, all_append, IH. cbn [Cmds.all].
  rewrite andb_true_r. apply andb_comm.
Qed.

(** On ASCII text the loop of [TrimSpace] stops, past a run of spaces,
    at a byte that is no space. *)
Lemma skipSpace_ascii s :
  Cmds.allASCII s = true ->
  exists lead r,
    skipSpace s = Stopped r /\ s = lead +++ r /\ Cmds.allSpace lead = true
    /\ Cmds.isSpace (Cmds.first r) = false /\ Cmds.allASCII r = true.
Proof.
  unfold Cmds.allASCII, Cmds.allSpace.
  induction s as [|c s IH]; intros Ha.
  - exists EmptyString, EmptyString. auto.
  - cbn [Cmds.all] in Ha. apply andb_prop in Ha. destruct Ha as [Hc Hs].
    cbn [skipSpace].
    assert (Hr : (RuneSelf <=? nat_of_ascii c)%nat = false).
    { apply Nat.ltb_lt in Hc. apply Nat.leb_gt. exact Hc. }
    rewrite Hr. destruct (asciiSpace c) eqn:Hsp.
    + destruct (IH Hs) as (lead & r & H1 & H2 & H3 & H4 & H5).
      exists (String c lead), r. rewrite H1. repeat split; auto.
      * change (String c lead +++ r) with (String c (lead +++ r)). congruence.
      * cbn [Cmds.all]. now rewrite Hsp, H3.
    + exists EmptyString, (String c s). repeat split; auto.
      cbn [Cmds.all]. now rewrite Hc, Hs.
Qed.

(** X6: on an all-ASCII output, the identifier that [ContainerID] returns
    is the output without the ASCII white space at its two ends: it neither
    begins nor ends with a space byte, and what was cut off before and
    after it is spaces only. *)
Theorem ContainerID_identifier_is_stripped lib w name h id :
  let output := stdoutData (docker.psAnswer w name h) in
  fst (docker.ContainerID lib w name h) = Ret (Ok id) ->
  Cmds.allASCII output = true ->
  Cmds.isSpace (Cmds.first id) = false
  /\ Cmds.isSpace (Cmds.first (reverse id)) = false
  /\ exists lead trail,
       output = lead +++ id +++ trail
       /\ Cmds.allSpace lead = true /\ Cmds.allSpace trail = true.
Proof.
  intros output Hid Hascii.
  assert (Ht : id = docker.TrimSpace lib output).
  { rewrite ContainerID_run in Hid. cbn [fst] in Hid. cbv zeta in Hid.
    destruct (exitError _); [discriminate|]. fold output in Hid.
    destruct (Nat.eqb_spec (length (Split (docker.TrimSpace lib output) LF)) 1) as [E|E];
      cbn [negb] in Hid; [|discriminate].
    injection Hid as <-.
    revert E. generalize (docker.TrimSpace lib output). intros t E.
    rewrite Split_length in E.
    assert (Hs : forall s, Count s LF = 0 -> Split s LF = [s]).
    { induction s as [|c s IH]; cbn [Split Count]; [reflexivity|].
      destruct (Ascii.eqb c LF); [discriminate|]. intros H. now rewrite (IH H). }
    rewrite Hs by congruence. reflexivity. }
  subst id. unfold docker.TrimSpace.
  destruct (skipSpace_ascii output Hascii) as (lead & r & H1 & H2 & H3 & H4 & H5).
  rewrite H1.
  assert (Hrev : Cmds.allASCII (reverse r) = true)
    by (unfold Cmds.allASCII in *; now rewrite all_reverse).
  destruct (skipSpace_ascii (reverse r) Hrev) as (lead' & r' & G1 & G2 & G3 & G4 & G5).
  rewrite G1.
  assert (Hr : r = reverse r' +++ reverse lead').
  { rewrite <- (reverse_involutive r), G2. apply reverse_append. }
  split; [|split].
  - destruct (reverse r') as [|c t] eqn:E; [reflexivity|].
    rewrite Hr in H4. exact H4.
  - now rewrite reverse_involutive.
  - exists lead, (reverse lead'). split; [congruence|]. split; [exact H3|].
    unfold Cmds.allSpace in *. now rewrite all_reverse.
Qed.

Lemma ContainerID_identifier_is_stripped_witness :
  let w := Example.world (Example.psScenario (" 0f3c " +++ newline)) in
  fst (docker.ContainerID Example.lib w "elastic-agent" []) = Ret (Ok "0f3c")
  /\ Cmds.isSpace (Cmds.first "0f3c") = false
  /\ exists lead trail,
       " 0f3c " +++ newline = lead +++ "0f3c" +++ trail
       /\ Cmds.allSpace lead = true /\ Cmds.allSpace trail = true.
Proof.
  cbv zeta. split; [reflexivity|].
  destruct (ContainerID_identifier_is_stripped Example.lib
              (Example.world (Example.psScenario (" 0f3c " +++ newline)))
              "elastic-agent" [] "0f3c" eq_refl eq_refl) as (H1 & _ & H3).
  split; [exact H1 | exact H3].
Defined.

(** ** Package cmd: more on the swarm commands *)

(** X7: [stackInit] fails fast on the interface: when the interface named
    by the flag does not exist, the lookup error is returned wrapped and
    nothing has been done.  More generally, [stackInit] does something to
    the outside only if its three flags are read and the interface exists. *)
Theorem stackInit_needs_flags_and_interface lib int w h :
  (forall iftname e,
     GetString w (InterfaceFlagName int) = Ok iftname ->
     InterfaceByName w h iftname = Some e ->
     swarm.stackInit lib int w h
     = (Ret (Some (withMessage e
                     "cannot create docker swarm without overlay network interface")),
        []))
  /\ (snd (swarm.stackInit lib int w h) <> [] ->
      exists iftname subnet networkName,
        GetString w (InterfaceFlagName int) = Ok iftname
        /\ InterfaceByName w h iftname = None
        /\ GetString w (IPSubnetFlagName int) = Ok subnet
        /\ GetString w (StackOverlayNetworkNameFlagName int) = Ok networkName).
Proof.
  split.
  - intros iftname e Hift Hif.
    unfold swarm.stackInit, swarm.interfaceByName.
    cbv beta iota delta [bind ret ask Wrap].
    rewrite Hift. step. rewrite Hif. reflexivity.
  - unfold swarm.stackInit, swarm.interfaceByName.
    cbv beta iota delta [bind ret ask Wrap].
    destruct (GetString w (InterfaceFlagName int)) as [iftname|]; step;
      [|intros H; now elim H].
    destruct (InterfaceByName w h iftname) eqn:Hif; step; [intros H; now elim H|].
    destruct (GetString w (IPSubnetFlagName int)) as [subnet|]; step;
      [|intros H; now elim H].
    destruct (GetString w (StackOverlayNetworkNameFlagName int)) as [networkName|]; step;
      [|intros H; now elim H].
    intros _. exists iftname, subnet, networkName. auto.
Qed.

Lemma stackInit_needs_flags_and_interface_witness :
  let w := Cases.withoutInterface
             (Example.world (Example.initScenario "10.1.0.0/16" false)) in
  swarm.stackInit Example.lib Example.int w []
  = (Ret (Some (withMessage (errorString "route ip+net: no such network interface")
                  "cannot create docker swarm without overlay network interface")),
     []).
Proof.
  cbv zeta.
  destruct (stackInit_needs_flags_and_interface Example.lib Example.int
              (Cases.withoutInterface
                 (Example.world (Example.initScenario "10.1.0.0/16" false))) [])
    as [H _].
  exact (H "eth0" (errorString "route ip+net: no such network interface")
           eq_refl eq_refl).
Defined.

(** A run of [stackInit] that gets to swarm init, by what swarm init and
    the creation of the overlay network give. *)
Lemma stackInit_from_swarm_init lib int w h iftname subnet networkName :
  GetString w (InterfaceFlagName int) = Ok iftname ->
  InterfaceByName w h iftname = None ->
  GetString w (IPSubnetFlagName int) = Ok subnet ->
  GetString w (StackOverlayNetworkNameFlagName int) = Ok networkName ->
  CreateProfile w h (swarm.swarmOptions int) = None ->
  let h1 := h ++ [EvCreateProfile (swarm.swarmOptions int)] in
  (forall e ev1,
     docker.SwarmInit lib w iftname h1 = (Ret (Err e), ev1) ->
     swarm.stackInit lib int w h
     = (Ret (Some (withMessage e "docker swarm creation has failed")),
        [EvCreateProfile (swarm.swarmOptions int)] ++ ev1))
  /\ (forall joinToken ev1 ev2,
        docker.SwarmInit lib w iftname h1 = (Ret (Ok joinToken), ev1) ->
        swarm.createOverlayNetwork lib w networkName subnet (h1 ++ ev1) = (Ret None, ev2) ->
        swarm.stackInit lib int w h
        = (Ret None,
           [EvCreateProfile (swarm.swarmOptions int)] ++ ev1 ++ ev2
             ++ [EvPrint (joinToken +++ newline)])).
Proof.
  intros Hift Hif Hsub Hnet Hprof h1. split.
  - intros e ev1 Hinit.
    unfold swarm.stackInit, swarm.interfaceByName, swarm.createProfile.
    cbv beta iota delta [bind ret ask].
    rewrite Hift. norm_history. rewrite Hif, Hsub, Hnet. norm_history.
    rewrite Hprof. cbv beta iota. norm_history.
    fold h1. rewrite Hinit. norm_history. reflexivity.
  - intros joinToken ev1 ev2 Hinit Hnetw.
    unfold swarm.stackInit, swarm.interfaceByName, swarm.createProfile.
    cbv beta iota delta [bind ret ask].
    rewrite Hift. norm_history. rewrite Hif, Hsub, Hnet. norm_history.
    rewrite Hprof. cbv beta iota. norm_history.
    fold h1. rewrite Hinit. subst h1. norm_history. rewrite Hnetw.
    unfold swarm.Println, emit. norm_history. reflexivity.
Qed.

Lemma SwarmInit_no_leave lib w ift h :
  ~ In (EvStart docker.leaveCmd) (snd (docker.SwarmInit lib w ift h)).
Proof.
  rewrite SwarmInit_run. cbv zeta.
  repeat match goal with
         | |- context [exitError ?p] => destruct (exitError p)
         end;
    cbn [snd In]; intros H;
    repeat match goal with
           | H : _ \/ _ |- _ => destruct H
           | H : False |- _ => destruct H
           | H : _ = EvStart _ |- _ => discriminate H
           end.
Qed.

(** X8: when swarm init fails, also when [docker swarm init] went
    through and only the join token could not be had, [stackInit] returns
    that error under "docker swarm creation has failed" and stops: it runs
    neither [docker swarm leave] nor [docker network create]. *)
Theorem stackInit_does_not_leave_on_swarm_init_failure
  lib int w h iftname subnet networkName e ev1 :
  GetString w (InterfaceFlagName int) = Ok iftname ->
  InterfaceByName w h iftname = None ->
  GetString w (IPSubnetFlagName int) = Ok subnet ->
  GetString w (StackOverlayNetworkNameFlagName int) = Ok networkName ->
  CreateProfile w h (swarm.swarmOptions int) = None ->
  docker.SwarmInit lib w iftname (h ++ [EvCreateProfile (swarm.swarmOptions int)])
  = (Ret (Err e), ev1) ->
  swarm.stackInit lib int w h
  = (Ret (Some (withMessage e "docker swarm creation has failed")),
     [EvCreateProfile (swarm.swarmOptions int)] ++ ev1)
  /\ forall c,
       In (EvStart c) (snd (swarm.stackInit lib int w h)) ->
       c <> docker.leaveCmd /\ subcommand c <> "network".
Proof.
  intros Hift Hif Hsub Hnet Hprof Hinit.
  destruct (stackInit_from_swarm_init lib int w h iftname subnet networkName
              Hift Hif Hsub Hnet Hprof) as [Hfail _].
  rewrite (Hfail e ev1 Hinit). split; [reflexivity|].
  intros c. cbn [snd app In]. intros [H|H]; [discriminate H|].
  pose proof (SwarmInit_no_leave lib w iftname
                (h ++ [EvCreateProfile (swarm.swarmOptions int)])) as Hleave.
  pose proof (SwarmInit_shape lib w iftname
                (h ++ [EvCreateProfile (swarm.swarmOptions int)])) as [_ Hsw].
  rewrite Hinit in Hleave, Hsw. cbn [snd] in Hleave, Hsw. split.
  - intros ->. exact (Hleave H).
  - rewrite (Hsw c H). discriminate.
Qed.

Lemma stackInit_does_not_leave_on_swarm_init_failure_witness :
  let w := Example.world Cases.joinTokenFails in
  exists e,
    fst (swarm.stackInit Example.lib Example.int w [])
    = Ret (Some (withMessage e "docker swarm creation has failed"))
    /\ In (EvStart (Cmds.swarmInit "eth0")) (snd (swarm.stackInit Example.lib Example.int w []))
    /\ ~ In (EvStart docker.leaveCmd) (snd (swarm.stackInit Example.lib Example.int w [])).
Proof.
  cbv zeta. eexists.
  edestruct (stackInit_does_not_leave_on_swarm_init_failure Example.lib Example.int
               (Example.world Cases.joinTokenFails) []
               "eth0" "10.1.0.0/16" "elastic-package-stack-overlay")
    as [Hrun Hno]; [reflexivity | reflexivity | reflexivity | reflexivity | reflexivity
                   | lazy; reflexivity | ].
  split; [rewrite Hrun; reflexivity|]. split.
  - rewrite Hrun. cbn. auto.
  - intros Hin. destruct (Hno _ Hin) as [Hne _]. now apply Hne.
Defined.

(** X9: when every step succeeds, [stackInit] returns nil, and the last
    thing it does, after the profile, swarm init and the overlay network,
    is to print the join token on a line of its own; nothing else is
    printed. *)
Theorem stackInit_prints_join_token
  lib int w h iftname subnet networkName joinToken ev1 ev2 :
  GetString w (InterfaceFlagName int) = Ok iftname ->
  InterfaceByName w h iftname = None ->
  GetString w (IPSubnetFlagName int) = Ok subnet ->
  GetString w (StackOverlayNetworkNameFlagName int) = Ok networkName ->
  CreateProfile w h (swarm.swarmOptions int) = None ->
  let h1 := h ++ [EvCreateProfile (swarm.swarmOptions int)] in
  docker.SwarmInit lib w iftname h1 = (Ret (Ok joinToken), ev1) ->
  swarm.createOverlayNetwork lib w networkName subnet (h1 ++ ev1) = (Ret None, ev2) ->
  swarm.stackInit lib int w h
  = (Ret None,
     [EvCreateProfile (swarm.swarmOptions int)] ++ ev1 ++ ev2
       ++ [EvPrint (joinToken +++ newline)])
  /\ forall s,
       In (EvPrint s) (snd (swarm.stackInit lib int w h)) -> s = joinToken +++ newline.
Proof.
  intros Hift Hif Hsub Hnet Hprof h1 Hinit Hnetw.
  destruct (stackInit_from_swarm_init lib int w h iftname subnet networkName
              Hift Hif Hsub Hnet Hprof) as [_ Hok].
  rewrite (Hok joinToken ev1 ev2 Hinit Hnetw). split; [reflexivity|].
  intros s. cbn [snd app In]. intros [H|H]; [discriminate H|].
  apply in_app_or in H. destruct H as [H|H].
  - exfalso. subst h1. rewrite SwarmInit_run in Hinit. cbv zeta in Hinit.
    repeat match type of Hinit with
           | context [exitError ?p] => destruct (exitError p)
           end;
      (first [discriminate Hinit | inversion Hinit; subst; clear Hinit]); cbn [In] in H;
      repeat match goal with
             | H : _ \/ _ |- _ => destruct H
             | H : False |- _ => destruct H
             | H : _ = EvPrint _ |- _ => discriminate H
             end.
  - apply in_app_or in H. destruct H as [H|H].
    + exfalso. unfold swarm.createOverlayNetwork in Hnetw.
      destruct (ParseCIDR lib subnet); [discriminate Hnetw|].
      cbv zeta in Hnetw.
      unfold docker.CreateNetwork, docker.Run, docker.start, bind, ret, emit in Hnetw.
      cbn in Hnetw.
      destruct (exitError _);
        (first [discriminate Hnetw | inversion Hnetw; subst; clear Hnetw]); cbn [In] in H;
        repeat match goal with
               | H : _ \/ _ |- _ => destruct H
               | H : False |- _ => destruct H
               | H : _ = EvPrint _ |- _ => discriminate H
               end.
    + destruct H as [H|[]]. now injection H as <-.
Qed.

Lemma stackInit_prints_join_token_witness :
  let w := Example.world (Example.initScenario "10.1.0.0/16" false) in
  fst (swarm.stackInit Example.lib Example.int w []) = Ret None
  /\ In (EvPrint ("SWMTKN-1-abc" +++ newline))
        (snd (swarm.stackInit Example.lib Example.int w [])).
Proof.
  cbv zeta.
  edestruct (stackInit_prints_join_token Example.lib Example.int
               (Example.world (Example.initScenario "10.1.0.0/16" false)) []
               "eth0" "10.1.0.0/16" "elastic-package-stack-overlay")
    as [Hrun _]; [reflexivity | reflexivity | reflexivity | reflexivity | reflexivity
                 | lazy; reflexivity | lazy; reflexivity | ].
  rewrite Hrun. split; [reflexivity|]. cbn. auto 10.
Defined.

(** X10: with a subnet that parses, [createOverlayNetwork] runs
    [docker network create --driver overlay --subnet subnet --attachable
    name], once, and returns nil exactly when that process exits 0. *)
Theorem createOverlayNetwork_command lib w networkName subnet h :
  ParseCIDR lib subnet = None ->
  let cmd := Cmds.networkCreate networkName "overlay" ["--subnet"; subnet; "--attachable"] in
  Args cmd = ["docker"; "network"; "create"; "--driver"; "overlay";
              "--subnet"; subnet; "--attachable"; networkName]
  /\ snd (swarm.createOverlayNetwork lib w networkName subnet h)
     = [EvDebugf "run command: %s" cmd; EvStart cmd]
  /\ (fst (swarm.createOverlayNetwork lib w networkName subnet h) = Ret None
      <-> exitError (process w (h ++ [EvDebugf "run command: %s" cmd]) cmd) = None).
Proof.
  intros Hcidr cmd. subst cmd. split; [reflexivity|].
  unfold swarm.createOverlayNetwork. rewrite Hcidr. cbv zeta.
  unfold docker.CreateNetwork, docker.Run, docker.start, bind, ret, emit, Wrap,
    Cmds.networkCreate.
  cbn [length Nat.ltb Nat.leb app fst snd].
  destruct (exitError _); cbn [fst snd app]; (split; [reflexivity|]); split; congruence.
Qed.

Lemma createOverlayNetwork_command_witness :
  let w := Example.world (Example.initScenario "10.1.0.0/16" false) in
  ParseCIDR Example.lib "10.1.0.0/16" = None
  /\ fst (swarm.createOverlayNetwork Example.lib w "overlay0" "10.1.0.0/16" []) = Ret None.
Proof.
  cbv zeta. split; [reflexivity|].
  apply (createOverlayNetwork_command Example.lib
           (Example.world (Example.initScenario "10.1.0.0/16" false))
           "overlay0" "10.1.0.0/16" [] eq_refl).
  reflexivity.
Defined.

(** X11: [swarmDown], once the stack name is read, runs [docker stack rm
    name] and nothing else; it prints "Done" exactly when it returns nil,
    which is exactly when that process exits 0; a failure of the process is
    returned under the message "booting up the stack failed". *)
Theorem swarmDown_behaviour int w h stackName :
  GetString w (StackNameFlagName int) = Ok stackName ->
  let shutdown := EvPrint ("Shutdown the Elastic stack (on swarm)" +++ newline) in
  let cmd := Cmds.stackRm w stackName in
  let p := process w (h ++ [shutdown; EvDebugf "running command: %s" cmd]) cmd in
  Args cmd = ["docker"; "stack"; "rm"; stackName]
  /\ (forall c, In (EvStart c) (snd (swarm.swarmDown int w h)) -> c = cmd)
  /\ (fst (swarm.swarmDown int w h) = Ret None <-> exitError p = None)
  /\ (In (EvPrint ("Done" +++ newline)) (snd (swarm.swarmDown int w h))
      <-> exitError p = None)
  /\ (forall x,
        exitError p = Some x ->
        fst (swarm.swarmDown int w h)
        = Ret (Some (withMessage x "booting up the stack failed"))).
Proof.
  intros Hname shutdown cmd p. subst shutdown cmd p.
  split; [unfold Cmds.stackRm, docker.debugStreams; destruct (IsDebugMode w); reflexivity|].
  unfold swarm.swarmDown, swarm.Println, docker.SwarmStackDown, docker.Run, docker.start,
    Cmds.stackRm.
  cbv beta iota zeta delta [bind ret emit Wrap].
  rewrite Hname. cbn [app fst snd]. norm_history.
  destruct (exitError _) as [x|]; cbn [fst snd app In].
  - split; [|split; [|split]].
    + intros c [H|[H|[H|[]]]]; try discriminate H. now injection H as <-.
    + split; discriminate.
    + split; [|discriminate]. intros [H|[H|[H|[]]]]; discriminate H.
    + intros x' H. now injection H as <-.
  - split; [|split; [|split]].
    + intros c [H|[H|[H|[H|[]]]]]; try discriminate H. now injection H as <-.
    + split; reflexivity.
    + split; auto 6.
    + discriminate.
Qed.

Lemma swarmDown_behaviour_witness :
  let w := Example.world (Cases.downScenario (Example.fails "nothing found in stack")) in
  GetString w (StackNameFlagName Example.int) = Ok "elastic"
  /\ swarm.swarmDown Example.int w []
     = (Ret (Some (withMessage Example.exitStatus1 "booting up the stack failed")),
        [EvPrint ("Shutdown the Elastic stack (on swarm)" +++ newline);
         EvDebugf "running command: %s" (Cmds.stackRm w "elastic");
         EvStart (Cmds.stackRm w "elastic")]).
Proof.
  cbv zeta. split; [reflexivity|].
  pose proof (swarmDown_behaviour Example.int
                (Example.world (Cases.downScenario (Example.fails "nothing found in stack")))
                [] "elastic" eq_refl) as (_ & _ & _ & _ & H).
  specialize (H Example.exitStatus1 eq_refl).
  destruct (swarm.swarmDown _ _ _) as [r evs] eqn:E. cbn [fst] in H. subst r.
  f_equal. vm_compute in E. now injection E as <-.
Defined.

(** ** Package cmd: more on the manifest query *)

(** X12: [queryCheck] reads [./go.mod] and nothing else happens; it
    passes exactly when the file opens, is read, and declares the module
    [github.com/elastic/integrations].  A failure to open is returned
    wrapped, a failure to read as it is. *)
Theorem queryCheck_passes_only_in_integrations lib w h :
  snd (query.queryCheck lib w h) = []
  /\ (fst (query.queryCheck lib w h) = Ret None
      <-> Open w h "./go.mod" = None
          /\ exists b, ReadAll w h "./go.mod" = Ok b
                       /\ ModulePath lib b = query.elasticIntegrations)
  /\ (forall e,
        Open w h "./go.mod" = Some e ->
        fst (query.queryCheck lib w h)
        = Ret (Some (withMessage e
               "query must be executed from the integrations project root directory")))
  /\ (forall e,
        Open w h "./go.mod" = None -> ReadAll w h "./go.mod" = Err e ->
        fst (query.queryCheck lib w h) = Ret (Some e)).
Proof.
  unfold query.queryCheck. cbv beta iota zeta delta [bind ret ask Wrap asIs].
  destruct (Open w h "./go.mod") as [e|]; step.
  - cbn [fst snd]. split; [reflexivity|]. split; [|split].
    + split; [discriminate|]. intros [H _]. discriminate H.
    + intros e' H. now injection H as <-.
    + discriminate.
  - destruct (ReadAll w h "./go.mod") as [b|e]; step.
    + destruct (String.eqb_spec (ModulePath lib b) query.elasticIntegrations) as [E|E];
        cbn [negb fst snd]; (split; [reflexivity|]); (split; [|split]); try discriminate.
      * split; [|reflexivity]. intros _. split; [reflexivity|]. eauto.
      * split; [discriminate|]. intros (_ & b' & Hb & Hm). congruence.
    + cbn [fst snd]. split; [reflexivity|]. split; [|split].
      * split; [discriminate|]. intros (_ & b' & Hb & _). discriminate Hb.
      * discriminate.
      * intros e' _ H. now injection H as <-.
Qed.

Lemma queryCheck_shape lib w h :
  exists r, query.queryCheck lib w h = (Ret r, []).
Proof.
  unfold query.queryCheck. cbv beta iota zeta delta [bind ret ask Wrap asIs].
  destruct (Open w h "./go.mod"); step; [eauto|].
  destruct (ReadAll w h "./go.mod"); step; [|eauto].
  destruct (negb _); eauto.
Qed.

Section MoreQuery.
Variable lib : GoLib.
Variable int : Internal.
Context {Config : Type} {ucfg : UcfgConfig Config}.
Variable load : trace -> string -> result Config.

(** X13: an entry of the packages directory that is not a directory is
    ignored by the loop of [queryManifest]: the loop gives, for any lists
    to start from, what it gives on the directories alone. *)
Theorem scanPackages_ignores_non_directories key values ppath pkgs skipped found h :
  query.scanPackages lib int load key values ppath pkgs skipped found h
  = query.scanPackages lib int load key values ppath (filter IsDir pkgs) skipped found h.
Proof.
  revert skipped found h.
  induction pkgs as [|pkg pkgs IH]; intros skipped found h; [reflexivity|].
  cbn [filter query.scanPackages].
  destruct (IsDir pkg) eqn:Hdir; [|apply IH].
  cbn [query.scanPackages]. rewrite Hdir.
  unfold bind, ask, query.lift.
  destruct (load h _) as [cfg|e].
  - destruct (query.queryPackageManifest key values cfg) as [[|]|msg];
      [rewrite IH | rewrite IH |]; reflexivity.
  - now rewrite IH.
Qed.

(** The loop over the flattened keys with no value at all. *)
Lemma firstKey_empty key (cfg : Config) keys :
  query.firstKey key [] cfg keys
  = if in_dec string_dec key keys
    then match CfgString cfg key 0 with
         | Ok _ => Panic "runtime error: index out of range [0] with length 0"
         | Err _ => Ret false
         end
    else Ret false.
Proof.
  induction keys as [|f keys IH]; cbn [query.firstKey]; [reflexivity|].
  destruct (String.eqb_spec key f) as [->|Hne].
  - destruct (in_dec string_dec f (f :: keys)) as [_|Hn]; [|exfalso; apply Hn; now left].
    reflexivity.
  - rewrite IH.
    destruct (in_dec string_dec key keys) as [Hin|Hn];
      destruct (in_dec string_dec key (f :: keys)) as [Hin'|Hn']; try reflexivity.
    + exfalso. apply Hn'. now right.
    + exfalso. destruct Hin' as [E|Hin']; [congruence|contradiction].
Qed.

(** X14: with an empty value list, [queryPackageManifest] panics on the
    index exactly when the key is among the flattened keys and has a
    string value; in every other case it returns false.  It never returns
    true. *)
Theorem queryPackageManifest_empty_values key (cfg : Config) :
  ((exists msg, query.queryPackageManifest key [] cfg = Panic msg)
   <-> In key (FlattenedKeys cfg) /\ exists v, CfgString cfg key 0 = Ok v)
  /\ (query.queryPackageManifest key [] cfg = Ret false
      <-> ~ (In key (FlattenedKeys cfg) /\ exists v, CfgString cfg key 0 = Ok v))
  /\ query.queryPackageManifest key [] cfg <> Ret true.
Proof.
  unfold query.queryPackageManifest. rewrite firstKey_empty.
  destruct (in_dec string_dec key (FlattenedKeys cfg)) as [Hin|Hn].
  - destruct (CfgString cfg key 0) as [v|e].
    + split; [|split; [|discriminate]].
      * split; eauto.
      * split; [discriminate|]. intros H. exfalso. apply H. eauto.
    + split; [|split; [|discriminate]].
      * split; [intros [msg H]; discriminate H|]. intros [_ [v H]]. discriminate H.
      * split; [|reflexivity]. intros _ [_ [v H]]. discriminate H.
  - split; [|split; [|discriminate]].
    + split; [intros [msg H]; discriminate H|]. intros [H _]. contradiction.
    + split; [|reflexivity]. intros _ [H _]. contradiction.
Qed.

End MoreQuery.

(** X15: once the check has passed, the value flag is read with a first
    value, and the packages directory is listed, [queryManifest] returns
    nil whatever the manifests are, and prints: the skipped packages under
    their heading, if there are any, then either the line that nothing was
    found or the matching packages under their heading, each list in the
    order of the listing. *)
Theorem queryManifest_report
  lib int w Config (ucfg : UcfgConfig Config)
  (load : trace -> string -> result Config) h values v rest pkgs :
  let key := match GetString w (ManifestKeyFlagName int) with
             | Ok k => k
             | Err _ => EmptyString
             end in
  let ppath := Join lib ["."; query.packagesDir] in
  query.queryCheck lib w h = (Ret None, []) ->
  GetStringSlice w (ManifestValueFlagName int) = Ok values ->
  TrimStringSlice int values = v :: rest ->
  ReadDir w h ppath = Ok pkgs ->
  query.queryManifest lib int w load h
  = (Ret None,
     Cmds.report (query.skippedOf lib int load h ppath pkgs)
       (query.matched lib int load key (v :: rest) h ppath pkgs)).
Proof.
  intros key ppath Hcheck Hvalues Htrim Hdir.
  unfold query.queryManifest.
  cbv beta iota zeta delta [bind ret ask asIs].
  rewrite Hcheck. step. rewrite Hvalues. step.
  fold ppath. rewrite Hdir. step. fold key. rewrite Htrim.
  rewrite scanPackages_run
    by (intros pkg cfg _ _ _; apply queryPackageManifest_total).
  step. unfold Cmds.report, Cmds.lines.
  destruct (query.skippedOf lib int load h ppath pkgs) as [|s0 sk];
    destruct (query.matched lib int load key (v :: rest) h ppath pkgs) as [|f0 fd];
    cbn [length Nat.ltb Nat.leb Nat.eqb]; step;
    unfold query.Println; unfold emit; step;
    rewrite ?printAll_run; step; reflexivity.
Qed.

Lemma queryManifest_report_witness :
  let pkgs := [Example.dir "a"; Example.dir "broken"; Example.dir "b"] in
  let w := Example.world (Example.queryScenario pkgs) in
  query.queryManifest Example.lib Example.int w (Example.loader Example.withBroken) []
  = (Ret None,
     [EvPrint ("Skipped packages:" +++ newline);
      EvPrint ("  broken: yaml: line 1: did not find expected key" +++ newline);
      EvPrint ("Packages:" +++ newline);
      EvPrint ("  a" +++ newline)]).
Proof.
  cbv zeta.
  rewrite (queryManifest_report Example.lib Example.int
             (Example.world (Example.queryScenario
                [Example.dir "a"; Example.dir "broken"; Example.dir "b"]))
             Example.FlatConfig Example.flatConfig (Example.loader Example.withBroken)
             [] ["x"] "x" []
             [Example.dir "a"; Example.dir "broken"; Example.dir "b"]
             eq_refl eq_refl eq_refl eq_refl).
  vm_compute. reflexivity.
Defined.

(** X16: when [queryManifest] returns an error it has printed nothing,
    and the error is the one of the check, of the value flag, or of the
    listing of the packages directory: no manifest can make it fail. *)
Theorem queryManifest_errors_print_nothing
  lib int w Config (ucfg : UcfgConfig Config)
  (load : trace -> string -> result Config) h e :
  fst (query.queryManifest lib int w load h) = Ret (Some e) ->
  snd (query.queryManifest lib int w load h) = []
  /\ (fst (query.queryCheck lib w h) = Ret (Some e)
      \/ (exists e', GetStringSlice w (ManifestValueFlagName int) = Err e'
                     /\ e = FlagParsingError int e' (ManifestValueFlagName int))
      \/ (exists e', ReadDir w h (Join lib ["."; query.packagesDir]) = Err e'
                     /\ e = withMessage e' "cannot find package directories")).
Proof.
  unfold query.queryManifest.
  cbv beta iota zeta delta [bind ret ask asIs Wrap].
  destruct (queryCheck_shape lib w h) as [r Hr]. rewrite Hr. step. cbn [fst].
  destruct r as [e0|]; [cbn [fst snd]; intros H; injection H as <-; auto|].
  destruct (GetStringSlice w (ManifestValueFlagName int)) as [values|e0]; step;
    [|cbn [fst snd]; intros H; injection H as <-; eauto 6].
  destruct (ReadDir w h _) as [pkgs|e0]; step;
    [|cbn [fst snd]; intros H; injection H as <-; eauto 6].
  destruct (query.scanPackages _ _ _ _ _ _ _ _ _ _) as [[[skipped found]|msg] evs];
    [|cbn [fst]; discriminate].
  step.
  destruct (0 <? length skipped)%nat; destruct (length found =? 0)%nat;
    destruct (0 <? length found)%nat;
    unfold query.Println; unfold emit; step; rewrite ?printAll_run; step;
    cbn [fst]; discriminate.
Qed.

Lemma queryManifest_errors_print_nothing_witness :
  let w := Cases.elsewhere (Example.world (Example.queryScenario [Example.dir "a"])) in
  query.queryManifest Example.lib Example.int w (Example.loader Example.twoPackages) []
  = (Ret (Some (errorString
                  "query must be executed from the integrations project root directory")),
     []).
Proof.
  cbv zeta.
  destruct (queryManifest_errors_print_nothing Example.lib Example.int
              (Cases.elsewhere (Example.world (Example.queryScenario [Example.dir "a"])))
              Example.FlatConfig Example.flatConfig (Example.loader Example.twoPackages) []
              (errorString
                 "query must be executed from the integrations project root directory")
              eq_refl) as [Hev _].
  destruct (query.queryManifest _ _ _ _ _) as [r evs] eqn:E.
  cbn [snd] in Hev. subst evs. f_equal.
  assert (Hr : fst (query.queryManifest Example.lib Example.int
              (Cases.elsewhere (Example.world (Example.queryScenario [Example.dir "a"])))
              (Example.loader Example.twoPackages) []) = r) by (rewrite E; reflexivity).
  rewrite <- Hr. reflexivity.
Defined.

(** ** Package stack: more on deploy *)

Lemma debugStreams_Args w c : Args (docker.debugStreams w c) = Args c.
Proof. unfold docker.debugStreams. destruct (IsDebugMode w); reflexivity. Qed.

(** X17: [stackDeploy] does not start a process when the application
    configuration cannot be read.  The one process it starts is [docker
    stack deploy --compose-file] with the snapshot file of the profile and
    the stack name; its two output streams are the console in debug mode
    and are dropped otherwise; and what [stackDeploy] returns is the exit
    error of that process as it is, nil for exit status 0. *)
Theorem stackDeploy_process int w options h :
  (forall e,
     Configuration w h = Err e ->
     stack.stackDeploy int w options h
     = (Ret (Some (withMessage e "can't read application configuration")), []))
  /\ forall pre c post,
       snd (stack.stackDeploy int w options h) = pre ++ EvStart c :: post ->
       Args c = Cmds.stackDeployArgs int options
       /\ Stdout c = (if IsDebugMode w then Console else Discard)
       /\ Stderr c = (if IsDebugMode w then Console else Discard)
       /\ post = []
       /\ fst (stack.stackDeploy int w options h)
          = Ret (exitError (process w (h ++ pre) c)).
Proof.
  rewrite stackDeploy_run. split.
  - intros e ->. reflexivity.
  - intros pre c post. destruct (Configuration w h) as [appConfig|e]; cbv zeta;
      cbn [fst snd]; intros H; split_events H.
    split; [apply debugStreams_Args|].
    unfold docker.debugStreams. destruct (IsDebugMode w); cbn; auto.
Qed.

(** X18: when [Deploy] starts the [docker stack deploy] process, that is
    the last thing it does, and by then it has cleared the destination and
    called the build of the images; [Deploy] returns nil only if, as its
    last step, it has started that process and the process has exited 0. *)
Theorem Deploy_deploys_last int w options h :
  (forall c,
     In (EvStart c) (snd (stack.Deploy int w options h)) ->
     Args c = Cmds.stackDeployArgs int options ->
     exists pre dst,
       snd (stack.Deploy int w options h) = pre ++ [EvStart c]
       /\ In (EvClearDir dst) pre
       /\ In (EvComposeBuild options) pre)
  /\ (fst (stack.Deploy int w options h) = Ret None ->
      exists pre c,
        snd (stack.Deploy int w options h) = pre ++ [EvStart c]
        /\ Args c = Cmds.stackDeployArgs int options
        /\ exitError (process w (h ++ pre) c) = None).
Proof.
  split.
  - intros c. run_deploy; cbn [snd In]; intros Hin _;
      repeat match goal with
             | H : _ \/ _ |- _ => destruct H
             | H : False |- _ => destruct H
             | H : _ = EvStart _ |- _ => first [discriminate H | injection H as <-]
             end;
      match goal with
      | |- exists pre dst, ?l = _ /\ _ =>
          match l with
          | EvClearDir ?d :: _ =>
              exists (removelast l), d; cbn [removelast]; split; [reflexivity|];
              cbn [In]; auto 12
          end
      end.
  - run_deploy; cbn [fst snd]; intros H; try discriminate H;
      match goal with
      | |- exists pre c, ?l = _ /\ _ =>
          exists (removelast l); cbn [removelast]; eexists;
          split; [reflexivity|]; split; [apply debugStreams_Args|]; assumption
      end.
Qed.

(** X19: [stackInit] creates one profile only, the swarm profile copied
    from the default one, overwriting what is there; and when that fails it
    returns the error under "swarm profile creation has failed" without
    having started any process. *)
Theorem stackInit_profile lib int w h :
  (forall o,
     In (EvCreateProfile o) (snd (swarm.stackInit lib int w h)) ->
     o = {| Name := SwarmProfile int;
            FromProfile := DefaultProfile int;
            OverwriteExisting := true |})
  /\ (forall e,
        CreateProfile w h (swarm.swarmOptions int) = Some e ->
        forall c, ~ In (EvStart c) (snd (swarm.stackInit lib int w h)))
  /\ (forall e,
        snd (swarm.stackInit lib int w h) <> [] ->
        CreateProfile w h (swarm.swarmOptions int) = Some e ->
        swarm.stackInit lib int w h
        = (Ret (Some (withMessage e "swarm profile creation has failed")),
           [EvCreateProfile (swarm.swarmOptions int)])).
Proof.
  assert (Hrun : forall e,
             CreateProfile w h (swarm.swarmOptions int) = Some e ->
             swarm.stackInit lib int w h
             = (Ret (Some (withMessage e "swarm profile creation has failed")),
                [EvCreateProfile (swarm.swarmOptions int)])
             \/ snd (swarm.stackInit lib int w h) = []).
  { intros e He.
    unfold swarm.stackInit, swarm.interfaceByName, swarm.createProfile.
    cbv beta iota delta [bind ret ask Wrap].
    destruct (GetString w (InterfaceFlagName int)) as [iftname|]; step; [|now right].
    destruct (InterfaceByName w h iftname); step; [now right|].
    destruct (GetString w (IPSubnetFlagName int)) as [subnet|]; step; [|now right].
    destruct (GetString w (StackOverlayNetworkNameFlagName int)) as [networkName|]; step;
      [|now right].
    rewrite He. step. now left. }
  split; [|split].
  - clear Hrun. intros o.
    unfold swarm.stackInit, swarm.interfaceByName, swarm.createProfile.
    cbv beta iota delta [bind ret ask Wrap].
    destruct (GetString w (InterfaceFlagName int)) as [iftname|]; step; [|intros []].
    destruct (InterfaceByName w h iftname); step; [intros []|].
    destruct (GetString w (IPSubnetFlagName int)) as [subnet|]; step; [|intros []].
    destruct (GetString w (StackOverlayNetworkNameFlagName int)) as [networkName|]; step;
      [|intros []].
    destruct (CreateProfile w h (swarm.swarmOptions int)); step.
    + cbn [snd In]. intros [H|[]]. now injection H as <-.
    + rewrite SwarmInit_run. cbv zeta.
      repeat match goal with
             | |- context [exitError ?p] => destruct (exitError p)
             end; step;
        try (unfold swarm.createOverlayNetwork, docker.CreateNetwork, docker.SwarmLeave,
               swarm.Println, docker.Run, docker.start;
             cbv beta iota zeta delta [bind ret emit Wrap];
             destruct (ParseCIDR lib subnet); step;
             repeat match goal with
                    | |- context [exitError ?p] => destruct (exitError p)
                    end; step);
        cbn [snd In]; intros Hin;
        repeat match goal with
               | H : _ \/ _ |- _ => destruct H
               | H : False |- _ => destruct H
               | H : _ = EvCreateProfile _ |- _ =>
                   first [discriminate H | injection H as <-]
               end; reflexivity.
  - intros e He c. destruct (Hrun e He) as [-> | ->]; cbn [snd In].
    + intros [H|[]]. discriminate H.
    + intros [].
  - intros e Hne He. destruct (Hrun e He) as [H|H]; [exact H|contradiction].
Qed.

(** ** Package elasticsearch *)

(** X20: the message of [NewError] always begins with "elasticsearch
    error".  For a body that does not decode, the rest of the message is
    the body itself, whole; for one that decodes, it is the type and the
    reason, and the root causes follow on lines of their own exactly when
    there is at least one. *)
Theorem NewError_message Any (Decode : string -> result (elasticsearch.ErrorBody Any))
  (MarshalIndent : list elasticsearch.RootCause -> string) body :
  let err := elasticsearch.NewError Any Decode MarshalIndent body in
  (exists rest, Error err = "elasticsearch error" +++ rest)
  /\ (forall e, Decode body = Err e -> Error err = "elasticsearch error: " +++ body)
  /\ (forall errBody,
        Decode body = Ok errBody ->
        let detail := elasticsearch.ErrorField Any errBody in
        let head := "elasticsearch error (type=" +++ elasticsearch.ErrType Any detail
                      +++ "): " +++ elasticsearch.ErrReason Any detail in
        match elasticsearch.RootCauses Any detail with
        | [] => Error err = head
        | causes =>
            Error err = head +++ newline +++ "Root cause:" +++ newline
                          +++ MarshalIndent causes
        end).
Proof.
  cbv zeta. unfold elasticsearch.NewError.
  destruct (Decode body) as [errBody|e].
  - destruct (elasticsearch.RootCauses Any (elasticsearch.ErrorField Any errBody))
      as [|c causes] eqn:E; cbn [length Nat.ltb Nat.leb Error].
    + split; [eexists; reflexivity|]. split; [discriminate|].
      intros b H. injection H as <-. rewrite E. reflexivity.
    + split; [eexists; reflexivity|]. split; [discriminate|].
      intros b H. injection H as <-. rewrite E.
      now rewrite !append_assoc.
  - cbn [Error]. split; [eexists; reflexivity|]. split; [reflexivity|]. discriminate.
Qed.

(** ** The manifest query without a value *)

Section WithoutValue.
Variable lib : GoLib.
Variable int : Internal.
Context {Config : Type} {ucfg : UcfgConfig Config}.
Variable load : trace -> string -> result Config.

(** With no value to compare with, no package matches. *)
Lemma matched_without_value key h ppath pkgs :
  query.matched lib int load key [] h ppath pkgs = [].
Proof.
  unfold query.matched.
  induction pkgs as [|pkg pkgs IH]; [reflexivity|].
  cbn [filter].
  replace (query.matches lib int load key [] h ppath pkg) with false; [exact IH|].
  unfold query.matches, query.queryPackageManifest.
  destruct (IsDir pkg); [|reflexivity]. cbn [andb].
  destruct (query.manifestOf lib int load h ppath pkg) as [cfg|e]; [|reflexivity].
  rewrite firstKey_empty.
  destruct (in_dec string_dec key (FlattenedKeys cfg)); [|reflexivity].
  destruct (CfgString cfg key 0); reflexivity.
Qed.

(** A run of [queryManifest] that gets to the packages with a first value. *)
Lemma queryManifest_run_with_value (w : World) h values v rest pkgs :
  let key := match GetString w (ManifestKeyFlagName int) with
             | Ok k => k
             | Err _ => EmptyString
             end in
  let ppath := Join lib ["."; query.packagesDir] in
  query.queryCheck lib w h = (Ret None, []) ->
  GetStringSlice w (ManifestValueFlagName int) = Ok values ->
  TrimStringSlice int values = v :: rest ->
  ReadDir w h ppath = Ok pkgs ->
  query.queryManifest lib int w load h
  = (Ret None,
     Cmds.report (query.skippedOf lib int load h ppath pkgs)
       (query.matched lib int load key (v :: rest) h ppath pkgs)).
Proof.
  intros key ppath Hcheck Hvalues Htrim Hdir.
  unfold query.queryManifest.
  cbv beta iota zeta delta [bind ret ask asIs].
  rewrite Hcheck. step. rewrite Hvalues. step.
  fold ppath. rewrite Hdir. step. fold key. rewrite Htrim.
  rewrite scanPackages_run
    by (intros pkg cfg _ _ _; apply queryPackageManifest_total).
  step. unfold Cmds.report, Cmds.lines.
  destruct (query.skippedOf lib int load h ppath pkgs) as [|s0 sk];
    destruct (query.matched lib int load key (v :: rest) h ppath pkgs) as [|f0 fd];
    cbn [length Nat.ltb Nat.leb Nat.eqb]; step;
    unfold query.Println; unfold emit; step;
    rewrite ?printAll_run; step; reflexivity.
Qed.

(** A run of [queryManifest] that gets to the packages without a value,
    where the first entry is a directory whose manifest holds the key with
    a string value. *)
Lemma queryManifest_run_without_value (w : World) h values pkg rest cfg v :
  let key := match GetString w (ManifestKeyFlagName int) with
             | Ok k => k
             | Err _ => EmptyString
             end in
  let ppath := Join lib ["."; query.packagesDir] in
  query.queryCheck lib w h = (Ret None, []) ->
  GetStringSlice w (ManifestValueFlagName int) = Ok values ->
  TrimStringSlice int values = [] ->
  ReadDir w h ppath = Ok (pkg :: rest) ->
  IsDir pkg = true ->
  query.manifestOf lib int load h ppath pkg = Ok cfg ->
  In key (FlattenedKeys cfg) ->
  CfgString cfg key 0 = Ok v ->
  query.queryManifest lib int w load h
  = (Panic "runtime error: index out of range [0] with length 0", []).
Proof.
  intros key ppath Hcheck Hvalues Htrim Hdir Hisdir Hload Hkey Hstr.
  unfold query.queryManifest.
  cbv beta iota zeta delta [bind ret ask asIs].
  rewrite Hcheck. step. rewrite Hvalues. step.
  fold ppath. rewrite Hdir. step. fold key. rewrite Htrim.
  cbn [query.scanPackages]. rewrite Hisdir.
  unfold query.manifestOf in Hload.
  unfold bind, ask, query.lift. rewrite Hload.
  unfold query.queryPackageManifest. rewrite firstKey_empty.
  destruct (in_dec string_dec key (FlattenedKeys cfg)) as [_|Hn]; [|contradiction].
  rewrite Hstr. reflexivity.
Qed.

End WithoutValue.

(** C9: the code departs from the claim where the value list is empty,
    which is what [--manifest-value ""] gives.  Then no package matches;
    yet, in a run that gets to the packages, if the first entry is a
    directory whose manifest holds the key with a string value,
    [queryManifest] does not return nil: it panics on [values[0]], having
    printed nothing. *)
Theorem queryManifest_panics_without_a_value
  lib int w Config (ucfg : UcfgConfig Config)
  (load : trace -> string -> result Config) h values pkg rest cfg v :
  let key := match GetString w (ManifestKeyFlagName int) with
             | Ok k => k
             | Err _ => EmptyString
             end in
  let ppath := Join lib ["."; query.packagesDir] in
  query.queryCheck lib w h = (Ret None, []) ->
  GetStringSlice w (ManifestValueFlagName int) = Ok values ->
  TrimStringSlice int values = [] ->
  ReadDir w h ppath = Ok (pkg :: rest) ->
  IsDir pkg = true ->
  query.manifestOf lib int load h ppath pkg = Ok cfg ->
  In key (FlattenedKeys cfg) ->
  CfgString cfg key 0 = Ok v ->
  query.matched lib int load key [] h ppath (pkg :: rest) = []
  /\ query.queryManifest lib int w load h
     = (Panic "runtime error: index out of range [0] with length 0", []).
Proof.
  intros key ppath Hcheck Hvalues Htrim Hdir Hisdir Hload Hkey Hstr. split.
  - apply matched_without_value.
  - exact (queryManifest_run_without_value lib int load w h values pkg rest cfg v
             Hcheck Hvalues Htrim Hdir Hisdir Hload Hkey Hstr).
Qed.

Lemma queryManifest_panics_without_a_value_witness :
  let pkgs := [Example.dir "a"] in
  let w := Example.world (Cases.noValueScenario pkgs) in
  let load := Example.loader Example.twoPackages in
  GetStringSlice w (ManifestValueFlagName Example.int) = Ok []
  /\ query.matched Example.lib Example.int load "foo.bar" [] [] "packages" pkgs = []
  /\ query.queryManifest Example.lib Example.int w load []
     = (Panic "runtime error: index out of range [0] with length 0", []).
Proof.
  cbv zeta. split; [reflexivity|].
  apply (queryManifest_panics_without_a_value Example.lib Example.int
           (Example.world (Cases.noValueScenario [Example.dir "a"]))
           Example.FlatConfig Example.flatConfig (Example.loader Example.twoPackages)
           [] [] (Example.dir "a") [] [("foo.bar", "x")] "x");
    try reflexivity.
  cbn. auto.
Defined.

(** C6: the code departs from the claim where the value list is empty.
    With [--manifest-value ""], a package [broken] whose manifest does not
    load and a valid sibling [a] that holds the key, [queryManifest] panics
    on [values[0]] at [a]: nothing is reported, neither the skipped package
    nor a result.  With a first value the code does what the claim says: a
    run that gets to the packages returns nil whatever fails to load, every
    directory whose manifest fails to load is in the skipped list and is
    printed, as its name and the message of the load error, and the matched
    list is exactly the directories whose manifest loads and matches. *)
Theorem queryManifest_load_failure_is_fatal_without_a_value :
  (let pkgs := [Example.dir "broken"; Example.dir "a"] in
   let w := Example.world (Cases.noValueScenario pkgs) in
   let load := Example.loader Example.withBroken in
   query.manifestOf Example.lib Example.int load [] "packages" (Example.dir "broken")
   = Err (errorString "yaml: line 1: did not find expected key")
   /\ query.manifestOf Example.lib Example.int load [] "packages" (Example.dir "a")
      = Ok [("foo.bar", "x")]
   /\ query.queryManifest Example.lib Example.int w load []
      = (Panic "runtime error: index out of range [0] with length 0", []))
  /\ (forall lib int w Config (ucfg : UcfgConfig Config)
        (load : trace -> string -> result Config) h values v rest pkgs,
        let key := match GetString w (ManifestKeyFlagName int) with
                   | Ok k => k
                   | Err _ => EmptyString
                   end in
        let ppath := Join lib ["."; query.packagesDir] in
        let skipped := query.skippedOf lib int load h ppath pkgs in
        query.queryCheck lib w h = (Ret None, []) ->
        GetStringSlice w (ManifestValueFlagName int) = Ok values ->
        TrimStringSlice int values = v :: rest ->
        ReadDir w h ppath = Ok pkgs ->
        query.queryManifest lib int w load h
        = (Ret None,
           Cmds.report skipped (query.matched lib int load key (v :: rest) h ppath pkgs))
        /\ forall pkg e,
             In pkg pkgs -> IsDir pkg = true ->
             query.manifestOf lib int load h ppath pkg = Err e ->
             In (FileName pkg +++ ": " +++ Error e) skipped
             /\ In (EvPrint ((" " +++ " " +++ FileName pkg +++ ": " +++ Error e) +++ newline))
                   (snd (query.queryManifest lib int w load h))).
Proof.
  split.
  - cbv zeta. split; [reflexivity|]. split; [reflexivity|]. vm_compute. reflexivity.
  - intros lib int w Config ucfg load h values v rest pkgs key ppath skipped
      Hcheck Hvalues Htrim Hdir.
    pose proof (queryManifest_run_with_value lib int load w h values v rest pkgs
                  Hcheck Hvalues Htrim Hdir) as Hrun.
    fold key ppath skipped in Hrun. split; [exact Hrun|].
    intros pkg e Hin Hisdir Hload.
    assert (Hsk : In (FileName pkg +++ ": " +++ Error e) skipped).
    { subst skipped. unfold query.skippedOf. apply in_flat_map.
      exists pkg. split; [exact Hin|].
      unfold query.skippedEntry. rewrite Hisdir, Hload. now left. }
    split; [exact Hsk|].
    rewrite Hrun. cbn [snd]. unfold Cmds.report. apply in_or_app. left.
    destruct skipped as [|s0 sk]; [destruct Hsk|].
    right. unfold Cmds.lines.
    apply (in_map (fun v0 => EvPrint ((" " +++ " " +++ v0) +++ newline))) in Hsk.
    exact Hsk.
Qed.

Lemma queryManifest_load_failure_is_fatal_without_a_value_witness :
  let pkgs := [Example.dir "a"; Example.dir "broken"; Example.dir "b"] in
  let w := Example.world (Example.queryScenario pkgs) in
  let load := Example.loader Example.withBroken in
  fst (query.queryManifest Example.lib Example.int w load []) = Ret None
  /\ In (EvPrint ((" " +++ " " +++ "broken" +++ ": "
                     +++ "yaml: line 1: did not find expected key") +++ newline))
        (snd (query.queryManifest Example.lib Example.int w load [])).
Proof.
  cbv zeta.
  destruct queryManifest_load_failure_is_fatal_without_a_value as [_ H].
  destruct (H Example.lib Example.int
              (Example.world (Example.queryScenario
                 [Example.dir "a"; Example.dir "broken"; Example.dir "b"]))
              Example.FlatConfig Example.flatConfig (Example.loader Example.withBroken)
              [] ["x"] "x" []
              [Example.dir "a"; Example.dir "broken"; Example.dir "b"]
              eq_refl eq_refl eq_refl eq_refl) as [Hrun Hskip].
  split; [rewrite Hrun; reflexivity|].
  destruct (Hskip (Example.dir "broken")
              (errorString "yaml: line 1: did not find expected key"))
    as [_ Hp]; [cbn; tauto | reflexivity | reflexivity |].
  exact Hp.
Defined.
